(** * fcserver: the device registry and hotplug lifecycle of the
      Open Pixel Control server (server/src/fcserver.cpp)

    The file embeds FCServer's USB side: [usbDeviceArrived],
    [usbDeviceLeft] (both overloads), [cbHotplug], [cbMessage], the flush
    part of [mainLoop], [usbHotplugPoll] and [usbHotplugThreadFunc].

    Modelling choices.
    - A pointer to a libusb_device is a number; two handles are the same
      device exactly when the numbers are equal (the code compares
      pointers).
    - A pointer to a USBDevice is an object: its address, its dynamic
      class and the handle it was constructed with.  [new] hands out
      addresses in increasing order and the set of live objects is part of
      the state; calling a method on, or deleting, an object that is not
      live has no defined result ([None]).
    - The std::vector of device pointers is the sequence of its elements,
      [begin, end); an iterator is a position in it.  Dereferencing,
      incrementing or erasing at a position that is not in [begin, end)
      has no defined result ([None]).  [erase] invalidates the iterators
      at and behind the erased element, the end included: a loop that
      goes on with them after an erase has no defined result
      ([usbHotplugPoll_removed_gone]).
    - Drivers (FCDevice, EnttecDMXDevice) live outside this file; their
      answers are parameters, and every call made to them is recorded in
      a chronological list of calls (getDevice(), a plain accessor, is
      not recorded).
    - Text written to std::clog is not modelled, and neither is the wall
      clock; a critical section of [mEventMutex] is one atomic step. *)

From Stdlib Require Import List Arith ZArith Bool Lia Permutation.
From Stdlib Require String Ascii.
Import ListNotations.

Set Implicit Arguments.

(** ** Native handles and device objects *)

Definition libusb_device := nat.

Inductive DriverClass : Type :=
| FCDevice
| EnttecDMXDevice.

Record USBDevice : Type := mkUSBDevice {
  self    : nat;            (* address of the object *)
  cls     : DriverClass;    (* which constructor built it *)
  mDevice : libusb_device   (* what getDevice() returns *)
}.

Definition DriverClass_eq_dec (a b : DriverClass) : {a = b} + {a <> b}.
Proof. decide equality. Defined.

Definition USBDevice_eq_dec (a b : USBDevice) : {a = b} + {a <> b}.
Proof.
  decide equality; [apply Nat.eq_dec | apply DriverClass_eq_dec | apply Nat.eq_dec].
Defined.

(** libusb's hotplug event bits (libusb.h). *)
Definition LIBUSB_HOTPLUG_EVENT_DEVICE_ARRIVED : Z := 1.
Definition LIBUSB_HOTPLUG_EVENT_DEVICE_LEFT : Z := 2.

(** What libusb_get_device_list hands back: the list, or a negative
    status when the enumeration failed. *)
Inductive device_list : Type :=
| Devices (list : list libusb_device)
| ListError (code : Z).

(** ** The vector of device pointers *)

Record vector : Type := mkVector {
  elems : list USBDevice    (* [begin, end) *)
}.

Definition vempty : vector := mkVector [].

Definition vsize (v : vector) : nat := length (elems v).

(** [*iter]: defined for an iterator in [begin, end) only. *)
Definition vat (v : vector) (i : nat) : option USBDevice :=
  nth_error (elems v) i.

(** [push_back] *)
Definition push_back (v : vector) (x : USBDevice) : vector :=
  mkVector (elems v ++ [x]).

(** [erase(iter)]: the elements behind [iter] move one place down and
    [end] moves one down.  Erasing at or behind [end] is not defined. *)
Definition erase (v : vector) (i : nat) : option vector :=
  if i <? vsize v
  then Some (mkVector (firstn i (elems v) ++ skipn (S i) (elems v)))
  else None.

Section Server.

Variables Value Message : Type.

(** ** The drivers, as the server sees them *)

Record Drivers : Type := mkDrivers {
  probe              : DriverClass -> libusb_device -> bool;
  open               : USBDevice -> Z;
  probeAfterOpening  : USBDevice -> bool;
  matchConfiguration : USBDevice -> Value -> bool
}.

(** ** The record of calls *)

Inductive Call : Type :=
| CLock
| CUnlock
| CArrived (device : libusb_device)          (* usbDeviceArrived entered *)
| CLeft (dev : USBDevice)                    (* usbDeviceLeft(iter) entered *)
| CProbe (c : DriverClass) (device : libusb_device)
| CNew (dev : USBDevice)
| COpen (dev : USBDevice)
| CProbeAfterOpening (dev : USBDevice)
| CMatchConfiguration (dev : USBDevice) (i : nat)
| CWriteColorCorrection (dev : USBDevice)
| CPushBack (dev : USBDevice)
| CErase (dev : USBDevice)
| CDelete (dev : USBDevice)
| CWriteMessage (dev : USBDevice) (msg : Message)
| CFlush (dev : USBDevice)
| CSleep.

(** ** FCServer *)

Record FCServer : Type := mkFCServer {
  mColor      : Value;
  mDevices    : list Value;
  mUSBDevices : vector;
  heap        : list USBDevice;   (* objects constructed and not deleted *)
  brk         : nat;              (* next address [new] hands out *)
  calls       : list Call
}.

Definition FCServer_init (color : Value) (devices : list Value) : FCServer :=
  mkFCServer color devices vempty [] 0 [].

Definition with_calls (s : FCServer) (c : list Call) : FCServer :=
  mkFCServer (mColor s) (mDevices s) (mUSBDevices s) (heap s) (brk s) c.

Definition with_vector (s : FCServer) (v : vector) : FCServer :=
  mkFCServer (mColor s) (mDevices s) v (heap s) (brk s) (calls s).

Definition with_heap (s : FCServer) (h : list USBDevice) (b : nat) : FCServer :=
  mkFCServer (mColor s) (mDevices s) (mUSBDevices s) h b (calls s).

(** ** A state monad with undefined behaviour *)

Definition M (A : Type) : Type := FCServer -> option (A * FCServer).

Definition ret {A : Type} (a : A) : M A := fun s => Some (a, s).

Definition bind {A B : Type} (m : M A) (f : A -> M B) : M B :=
  fun s => match m s with
           | Some (a, s') => f a s'
           | None => None
           end.

Notation "x <- m ;; k" := (bind m (fun x => k))
  (at level 61, m at next level, right associativity).
Notation "m ;; k" := (bind m (fun _ => k))
  (at level 61, right associativity).

Definition call (c : Call) : M unit :=
  fun s => Some (tt, with_calls s (calls s ++ [c])).

Definition is_live (dev : USBDevice) (s : FCServer) : bool :=
  if in_dec USBDevice_eq_dec dev (heap s) then true else false.

(** A method call on [dev]: defined on a live object only. *)
Definition method (dev : USBDevice) (c : Call) : M unit :=
  fun s => if is_live dev s then call c s else None.

Definition new (c : DriverClass) (device : libusb_device) : M USBDevice :=
  fun s => let dev := mkUSBDevice (brk s) c device in
           (call (CNew dev) ;; ret dev)
             (with_heap s (dev :: heap s) (S (brk s))).

Definition delete (dev : USBDevice) : M unit :=
  fun s => if is_live dev s
           then call (CDelete dev)
                     (with_heap s (remove USBDevice_eq_dec dev (heap s)) (brk s))
           else None.

(** [dev->getDevice()] *)
Definition getDevice (dev : USBDevice) : M libusb_device :=
  fun s => if is_live dev s then Some (mDevice dev, s) else None.

(** [mUSBDevices.end() - mUSBDevices.begin()] *)
Definition vend : M nat := fun s => Some (vsize (mUSBDevices s), s).

(** [*i] *)
Definition deref (i : nat) : M USBDevice :=
  fun s => match vat (mUSBDevices s) i with
           | Some dev => Some (dev, s)
           | None => None
           end.

Definition vpush_back (dev : USBDevice) : M unit :=
  fun s => call (CPushBack dev) (with_vector s (push_back (mUSBDevices s) dev)).

Definition verase (i : nat) (dev : USBDevice) : M unit :=
  fun s => match erase (mUSBDevices s) i with
           | Some v => call (CErase dev) (with_vector s v)
           | None => None
           end.

(** [++i]: defined for an iterator in [begin, end) only; the end
    iterator cannot be incremented. *)
Definition vnext (i : nat) : M nat :=
  fun s => if i <? vsize (mUSBDevices s) then Some (S i, s) else None.

(** [for (i = begin, e = end; i != e; ++i) body]: [n] is the distance
    from [i] to [e], fixed when the loop is entered. *)
Fixpoint for_iter {A : Type} (n i : nat) (body : nat -> A -> M A) (a : A) : M A :=
  match n with
  | 0 => ret a
  | S n' => a' <- body i a ;; i' <- vnext i ;; for_iter n' i' body a'
  end.

Variable drv : Drivers.

(** ** usbDeviceArrived *)

(** The loop over [mDevices]; the result tells whether the loop returned
    from the function (the device was kept). *)
Fixpoint usbDeviceArrived_config (dev : USBDevice) (i : nat) (cfg : list Value)
  : M bool :=
  match cfg with
  | [] => ret false
  | c :: rest =>
      method dev (CMatchConfiguration dev i) ;;
      if matchConfiguration drv dev c
      then method dev (CWriteColorCorrection dev) ;;
           vpush_back dev ;;
           ret true
      else usbDeviceArrived_config dev (S i) rest
  end.

Definition usbDeviceArrived_opened (dev : USBDevice) : M unit :=
  method dev (COpen dev) ;;
  if (open drv dev <? 0)%Z
  then delete dev
  else
    method dev (CProbeAfterOpening dev) ;;
    if negb (probeAfterOpening drv dev)
    then delete dev
    else
      devices <- (fun s => Some (mDevices s, s)) ;;
      kept <- usbDeviceArrived_config dev 0 devices ;;
      if kept then ret tt else delete dev.

Definition usbDeviceArrived (device : libusb_device) : M unit :=
  call (CArrived device) ;;
  call (CProbe FCDevice device) ;;
  if probe drv FCDevice device
  then dev <- new FCDevice device ;; usbDeviceArrived_opened dev
  else
    call (CProbe EnttecDMXDevice device) ;;
    if probe drv EnttecDMXDevice device
    then dev <- new EnttecDMXDevice device ;; usbDeviceArrived_opened dev
    else ret tt.

(** ** usbDeviceLeft *)

(** usbDeviceLeft on an iterator into mUSBDevices. *)
Definition usbDeviceLeft_iter (i : nat) : M unit :=
  dev <- deref i ;;
  call (CLeft dev) ;;
  verase i dev ;;
  delete dev.

(** The loop of usbDeviceLeft on a native handle, which leaves at the
    first hit. *)
Fixpoint usbDeviceLeft_loop (device : libusb_device) (n i : nat) : M unit :=
  match n with
  | 0 => ret tt
  | S n' =>
      dev <- deref i ;;
      usbdev <- getDevice dev ;;
      if usbdev =? device
      then usbDeviceLeft_iter i
      else i' <- vnext i ;; usbDeviceLeft_loop device n' i'
  end.

Definition usbDeviceLeft (device : libusb_device) : M unit :=
  e <- vend ;;
  usbDeviceLeft_loop device e 0.

(** ** cbHotplug, cbMessage, mainLoop *)

Definition cbHotplug (device : libusb_device) (event : Z) : M unit :=
  call CLock ;;
  (if Z.eqb (Z.land event LIBUSB_HOTPLUG_EVENT_DEVICE_ARRIVED) 0
   then ret tt else usbDeviceArrived device) ;;
  (if Z.eqb (Z.land event LIBUSB_HOTPLUG_EVENT_DEVICE_LEFT) 0
   then ret tt else usbDeviceLeft device) ;;
  call CUnlock.

Definition cbMessage (msg : Message) : M unit :=
  call CLock ;;
  e <- vend ;;
  for_iter e 0 (fun i _ => dev <- deref i ;; method dev (CWriteMessage dev msg)) tt ;;
  call CUnlock.

(** The part of one turn of [mainLoop] that touches the registry. *)
Definition mainLoop_flush : M unit :=
  call CLock ;;
  e <- vend ;;
  for_iter e 0 (fun i _ => dev <- deref i ;; method dev (CFlush dev)) tt ;;
  call CUnlock.

(** ** usbHotplugPoll *)

(** The inner loop of the first half: is [device] behind none of the
    registered objects? *)
Definition usbHotplugPoll_isNew (device : libusb_device) : M bool :=
  e <- vend ;;
  for_iter e 0
    (fun i isNew =>
       dev <- deref i ;;
       usbdev <- getDevice dev ;;
       ret (if usbdev =? device then false else isNew))
    true.

(** The first half: devices that were added. *)
Fixpoint usbHotplugPoll_added (list : list libusb_device) : M unit :=
  match list with
  | [] => ret tt
  | item :: rest =>
      isNew <- usbHotplugPoll_isNew item ;;
      (if isNew then usbDeviceArrived item else ret tt) ;;
      usbHotplugPoll_added rest
  end.

(** The inner loop of the second half, over the enumeration. *)
Definition usbHotplugPoll_isRemoved (list : list libusb_device)
  (usbdev : libusb_device) : bool :=
  fold_left (fun isRemoved item => if item =? usbdev then false else isRemoved)
            list true.

(** The second half: devices that were removed.  [e] is read once, before
    the first [erase], and the loop goes on with [i] after
    [usbDeviceLeft(i)] has erased there. *)
Definition usbHotplugPoll_removed (list : list libusb_device) : M unit :=
  e <- vend ;;
  for_iter e 0
    (fun i _ =>
       dev <- deref i ;;
       usbdev <- getDevice dev ;;
       if usbHotplugPoll_isRemoved list usbdev
       then usbDeviceLeft_iter i
       else ret tt)
    tt.

Definition usbHotplugPoll (r : device_list) : M bool :=
  match r with
  | ListError _ => ret false
  | Devices list =>
      call CLock ;;
      usbHotplugPoll_added list ;;
      usbHotplugPoll_removed list ;;
      call CUnlock ;;
      ret true
  end.

(** ** usbHotplugThreadFunc *)

(** The thread sees one enumeration per turn of its loop.  [Returned]: the
    loop was left; [Polling]: the enumerations given so far are used up
    and the loop is still running. *)
Inductive thread_state : Type :=
| Returned (s : FCServer)
| Polling (s : FCServer).

Fixpoint usbHotplugThreadFunc (enumerations : list device_list) (s : FCServer)
  : option thread_state :=
  match enumerations with
  | [] => Some (Polling s)
  | r :: rest =>
      match usbHotplugPoll r s with
      | None => None
      | Some (true, s1) =>
          match call CSleep s1 with
          | Some (_, s2) => usbHotplugThreadFunc rest s2
          | None => None
          end
      | Some (false, s1) => Some (Returned s1)
      end
  end.


(** ** What the other threads and the transport can do to the server *)

Inductive step : Type :=
| Hotplug (device : libusb_device) (event : Z)
| Poll (r : device_list)
| OpcMessage (msg : Message)
| MainLoop.

Definition do_step (e : step) : M unit :=
  match e with
  | Hotplug device event => cbHotplug device event
  | Poll r => _ <- usbHotplugPoll r ;; ret tt
  | OpcMessage msg => cbMessage msg
  | MainLoop => mainLoop_flush
  end.

Fixpoint run (es : list step) : M unit :=
  match es with
  | [] => ret tt
  | e :: rest => do_step e ;; run rest
  end.

(** ** Observations *)

Definition registered (s : FCServer) : list USBDevice :=
  elems (mUSBDevices s).

(** The handles of the registered devices, in registration order. *)
Definition handles (s : FCServer) : list libusb_device :=
  map mDevice (registered s).

Definition is_registered (device : libusb_device) (s : FCServer) : bool :=
  existsb (fun h => h =? device) (handles s).

(** Projections of a list of calls. *)
Definition pushes (cs : list Call) : list USBDevice :=
  flat_map (fun c => match c with CPushBack d => [d] | _ => [] end) cs.

Definition colors (cs : list Call) : list USBDevice :=
  flat_map (fun c => match c with CWriteColorCorrection d => [d] | _ => [] end) cs.

Definition arrivals (cs : list Call) : list libusb_device :=
  flat_map (fun c => match c with CArrived h => [h] | _ => [] end) cs.

Definition departures (cs : list Call) : list USBDevice :=
  flat_map (fun c => match c with CLeft d => [d] | _ => [] end) cs.

Definition deletes (cs : list Call) : list USBDevice :=
  flat_map (fun c => match c with CDelete d => [d] | _ => [] end) cs.

Definition news (cs : list Call) : list USBDevice :=
  flat_map (fun c => match c with CNew d => [d] | _ => [] end) cs.

Definition writes (cs : list Call) : list (USBDevice * Message) :=
  flat_map (fun c => match c with CWriteMessage d m => [(d, m)] | _ => [] end) cs.

(** The indices of [mDevices] a device was asked about. *)
Definition consulted (dev : USBDevice) (cs : list Call) : list nat :=
  flat_map (fun c => match c with
                     | CMatchConfiguration d i =>
                         if USBDevice_eq_dec d dev then [i] else []
                     | _ => []
                     end) cs.

(** The native handle a call is about, if any. *)
Definition call_handle (c : Call) : option libusb_device :=
  match c with
  | CLock | CUnlock | CSleep => None
  | CArrived h | CProbe _ h => Some h
  | CLeft d | CNew d | COpen d | CProbeAfterOpening d
  | CMatchConfiguration d _ | CWriteColorCorrection d | CPushBack d
  | CErase d | CDelete d | CWriteMessage d _ | CFlush d => Some (mDevice d)
  end.

Definition about (device : libusb_device) (cs : list Call) : list Call :=
  filter (fun c => match call_handle c with
                   | Some h => h =? device
                   | None => false
                   end) cs.

(** fcserver.cpp keeps no record of the entry a device matched: the
    device is configured by the matchConfiguration call that returned
    true.  [assignment] reads that off the calls: the last entry [dev] was
    asked about and accepts. *)
Definition assignment (cfg : list Value) (dev : USBDevice) (cs : list Call)
  : option nat :=
  fold_left (fun acc i =>
               match nth_error cfg i with
               | Some c => if matchConfiguration drv dev c then Some i else acc
               | None => acc
               end)
            (consulted dev cs) None.

(** ** The attach attempt, path by path

    The five ways through usbDeviceArrived, the calls made on each and the
    state each leaves behind.  These are closed forms for the proofs;
    [usbDeviceArrived_eq] shows that the code above computes them. *)

Inductive outcome : Type :=
| Attached (dev : USBDevice) (k : nat)
| UnmatchedDriver
| OpenFailed (dev : USBDevice)
| PostOpenProbeFailed (dev : USBDevice)
| NoConfigMatch (dev : USBDevice).

(** The instance an outcome speaks of. *)
Definition outcome_dev (o : outcome) : option USBDevice :=
  match o with
  | UnmatchedDriver => None
  | Attached dev _ | OpenFailed dev | PostOpenProbeFailed dev
  | NoConfigMatch dev => Some dev
  end.

Definition probed (device : libusb_device) : option DriverClass :=
  if probe drv FCDevice device then Some FCDevice
  else if probe drv EnttecDMXDevice device then Some EnttecDMXDevice
  else None.

Fixpoint first_match (dev : USBDevice) (cfg : list Value) : option nat :=
  match cfg with
  | [] => None
  | c :: rest =>
      if matchConfiguration drv dev c then Some 0
      else option_map S (first_match dev rest)
  end.

Definition attach_outcome (device : libusb_device) (s : FCServer) : outcome :=
  match probed device with
  | None => UnmatchedDriver
  | Some c =>
      let dev := mkUSBDevice (brk s) c device in
      if (open drv dev <? 0)%Z then OpenFailed dev
      else if negb (probeAfterOpening drv dev) then PostOpenProbeFailed dev
      else match first_match dev (mDevices s) with
           | Some k => Attached dev k
           | None => NoConfigMatch dev
           end
  end.

Definition probe_calls (dev : USBDevice) : list Call :=
  [CArrived (mDevice dev); CProbe FCDevice (mDevice dev)]
  ++ match cls dev with
     | FCDevice => []
     | EnttecDMXDevice => [CProbe EnttecDMXDevice (mDevice dev)]
     end
  ++ [CNew dev].

Definition attach_calls (device : libusb_device) (n : nat) (o : outcome)
  : list Call :=
  match o with
  | UnmatchedDriver =>
      [CArrived device; CProbe FCDevice device; CProbe EnttecDMXDevice device]
  | OpenFailed dev =>
      probe_calls dev ++ [COpen dev; CDelete dev]
  | PostOpenProbeFailed dev =>
      probe_calls dev ++ [COpen dev; CProbeAfterOpening dev; CDelete dev]
  | NoConfigMatch dev =>
      probe_calls dev ++ [COpen dev; CProbeAfterOpening dev]
      ++ map (CMatchConfiguration dev) (seq 0 n) ++ [CDelete dev]
  | Attached dev k =>
      probe_calls dev ++ [COpen dev; CProbeAfterOpening dev]
      ++ map (CMatchConfiguration dev) (seq 0 (S k))
      ++ [CWriteColorCorrection dev; CPushBack dev]
  end.

Definition attach_state (device : libusb_device) (s : FCServer) : FCServer :=
  let o := attach_outcome device s in
  let cs := calls s ++ attach_calls device (length (mDevices s)) o in
  match o with
  | UnmatchedDriver => with_calls s cs
  | Attached dev _ =>
      mkFCServer (mColor s) (mDevices s) (push_back (mUSBDevices s) dev)
                 (dev :: heap s) (S (brk s)) cs
  | OpenFailed dev | PostOpenProbeFailed dev | NoConfigMatch dev =>
      mkFCServer (mColor s) (mDevices s) (mUSBDevices s)
                 (remove USBDevice_eq_dec dev (heap s)) (S (brk s)) cs
  end.

(** What usbDeviceLeft on the iterator at [d] leaves behind, when
    mUSBDevices held [l1 ++ d :: l2] (closed form, see
    [usbDeviceLeft_iter_eq]). *)
Definition detach_state (s : FCServer) (l1 : list USBDevice) (d : USBDevice)
  (l2 : list USBDevice) : FCServer :=
  mkFCServer (mColor s) (mDevices s)
    (mkVector (l1 ++ l2))
    (remove USBDevice_eq_dec d (heap s)) (brk s)
    (calls s ++ [CLeft d; CErase d; CDelete d]).

(** ** Invariants of the server state *)

(** Registered objects are distinct and live, and no live object sits at
    or above the next address. *)
Definition wf (s : FCServer) : Prop :=
  NoDup (registered s)
  /\ incl (registered s) (heap s)
  /\ Forall (fun d => self d < brk s) (heap s).

(** Calls that are neither writeColorCorrection nor push_back. *)
Definition plain (c : Call) : Prop :=
  match c with
  | CWriteColorCorrection _ | CPushBack _ => False
  | _ => True
  end.

(** writeColorCorrection and push_back come in adjacent pairs on one
    object, and nowhere else. *)
Inductive paired : list Call -> Prop :=
| paired_nil : paired []
| paired_plain c cs : plain c -> paired cs -> paired (c :: cs)
| paired_pair d cs :
    paired cs -> paired (CWriteColorCorrection d :: CPushBack d :: cs).

(** The invariant behind the colour-correction claim: the pairs are
    intact, no object was pushed twice, every registered object was
    pushed, and every pushed object sits below the next address. *)
Definition inv (s : FCServer) : Prop :=
  wf s
  /\ paired (calls s)
  /\ NoDup (pushes (calls s))
  /\ incl (registered s) (pushes (calls s))
  /\ Forall (fun d => self d < brk s) (pushes (calls s)).

(** The invariant behind the no-duplicates claim. *)
Definition unique_handles (s : FCServer) : Prop :=
  wf s /\ NoDup (handles s).

(** The handle is not registered. *)
Definition unregistered (device : libusb_device) (s : FCServer) : bool :=
  negb (is_registered device s).

(** A step meets the guard [g] when it is not an arrival, or [g] holds of
    the arriving handle at the time. *)
Definition guarded (g : libusb_device -> FCServer -> bool) (e : step)
  (s : FCServer) : bool :=
  match e with
  | Hotplug device event =>
      if Z.eqb (Z.land event LIBUSB_HOTPLUG_EVENT_DEVICE_ARRIVED) 0
      then true
      else g device s
  | _ => true
  end.

Fixpoint all_guarded (g : libusb_device -> FCServer -> bool) (es : list step)
  (s : FCServer) : bool :=
  match es with
  | [] => true
  | e :: rest =>
      guarded g e s
      && match do_step e s with
         | Some (_, s') => all_guarded g rest s'
         | None => true
         end
  end.

(** ** Further notions *)

(** The steps of event mode: everything but a poll step. *)
Definition event_step (e : step) : Prop :=
  match e with
  | Poll _ => False
  | _ => True
  end.

(** Successive enumerations of a bus that only grows, from the handles
    [prev] on. *)
Fixpoint grows (prev : list libusb_device)
  (enumerations : list (list libusb_device)) : Prop :=
  match enumerations with
  | [] => True
  | e :: rest => incl prev e /\ grows e rest
  end.

(** Nothing is live but what is registered. *)
Definition tidy (s : FCServer) : Prop :=
  wf s /\ incl (heap s) (registered s).

End Server.

Arguments CLock {Message}.
Arguments CUnlock {Message}.
Arguments CArrived {Message} device.
Arguments CLeft {Message} dev.
Arguments CProbe {Message} c device.
Arguments CNew {Message} dev.
Arguments COpen {Message} dev.
Arguments CProbeAfterOpening {Message} dev.
Arguments CMatchConfiguration {Message} dev i.
Arguments CWriteColorCorrection {Message} dev.
Arguments CPushBack {Message} dev.
Arguments CErase {Message} dev.
Arguments CDelete {Message} dev.
Arguments CFlush {Message} dev.
Arguments CSleep {Message}.
Arguments Hotplug {Message} device event.
Arguments Poll {Message} r.
Arguments MainLoop {Message}.
Arguments ret {Value Message A} a.
Arguments vend {Value Message}.
Arguments FCServer_init {Value} Message color devices.
Arguments attach_calls {Message} device n o.
Arguments probe_calls {Message} dev.
Arguments unregistered {Value Message} device s.
Arguments inv {Value Message} s.
Arguments unique_handles {Value Message} s.
Arguments wf {Value Message} s.
Arguments tidy {Value Message} s.

(** * The constructor

    FCServer's constructor reads four members of the configuration
    document and validates two of them, collecting its complaints in
    mError.  rapidjson and OPCSink::newAddr live outside this file: the
    queries the constructor makes are parameters.  newAddr hands back a
    null pointer when it cannot resolve ([None]).  Writing a null
    character pointer to a stream has no defined result ([None] for the
    whole constructor). *)

Module Config.
Import String.

Definition nl : string := String (Ascii.ascii_of_nat 10) EmptyString.

Section Constructor.

Variables Value Addr : Type.

Record rapidjson : Type := mkRapidjson {
  IsArray   : Value -> bool;
  Size      : Value -> nat;
  Index     : Value -> nat -> Value;     (* operator[] on an array *)
  IsString  : Value -> bool;
  GetString : Value -> string;
  IsNull    : Value -> bool;
  IsUint    : Value -> bool;
  GetUint   : Value -> N;
  IsTrue    : Value -> bool
}.

Variable json : rapidjson.
Variable newAddr : option string -> N -> option Addr.

Record FCServer : Type := mkFCServer {
  mListen     : Value;
  mColor      : Value;
  mDevices    : Value;
  mVerbose    : bool;
  mListenAddr : option Addr;
  mError      : string
}.

Definition bad_hostname : string :=
  ("Hostname in 'listen' must be null (any) or a hostname string." ++ nl)%string.

Definition unresolved (hostStr : string) : string :=
  ("Failed to resolve hostname '" ++ hostStr ++ "'" ++ nl)%string.

Definition bad_port : string :=
  ("The 'listen' port must be an integer." ++ nl)%string.

Definition bad_listen : string :=
  ("The required 'listen' configuration key must be a [host, port] list."
   ++ nl)%string.

Definition bad_devices : string :=
  ("The required 'devices' configuration key must be an array." ++ nl)%string.

(** The first block of the constructor body: mListenAddr and mError
    after it, from mError before it. *)
Definition parse_listen (listen : Value) (error : string)
  : option (option Addr * string) :=
  if (if IsArray json listen then Size json listen =? 2 else false)
  then
    let host := Index json listen 0 in
    let port := Index json listen 1 in
    let hostStr := if IsString json host then Some (GetString json host) else None in
    let error1 :=
      if IsString json host then error
      else if negb (IsNull json host) then (error ++ bad_hostname)%string
      else error in
    if IsUint json port
    then
      match newAddr hostStr (GetUint json port) with
      | Some addr => Some (Some addr, error1)
      | None =>
          match hostStr with
          | Some h => Some (None, (error1 ++ unresolved h)%string)
          | None => None
          end
      end
    else Some (None, (error1 ++ bad_port)%string)
  else Some (None, (error ++ bad_listen)%string).

Definition FCServer_new (config : string -> Value) : option FCServer :=
  let listen := config "listen"%string in
  let color := config "color"%string in
  let devices := config "devices"%string in
  let verbose := IsTrue json (config "verbose"%string) in
  match parse_listen listen EmptyString with
  | None => None
  | Some (addr, error) =>
      Some (mkFCServer listen color devices verbose addr
              (if IsArray json devices then error
               else (error ++ bad_devices)%string))
  end.

(** What the constructor looks at. *)
Definition host_of (config : string -> Value) : Value :=
  Index json (config "listen"%string) 0.

Definition port_of (config : string -> Value) : Value :=
  Index json (config "listen"%string) 1.

Definition hostStr_of (config : string -> Value) : option string :=
  if IsString json (host_of config)
  then Some (GetString json (host_of config))
  else None.

Definition pair_listen (config : string -> Value) : bool :=
  IsArray json (config "listen"%string)
  && (Size json (config "listen"%string) =? 2).

Definition well_formed (config : string -> Value) : bool :=
  pair_listen config
  && (IsString json (host_of config) || IsNull json (host_of config))
  && IsUint json (port_of config)
  && IsArray json (config "devices"%string).

End Constructor.

(** A small stand-in for rapidjson values, for concrete documents:
    scalars, and arrays of scalars. *)
Inductive J : Type :=
| JNull
| JTrue
| JUint (n : N)
| JString (s : string)
| JArray (items : list (option (N + string))).

(** An array item: null, an unsigned number or a string. *)
Definition J_item (x : option (N + string)) : J :=
  match x with
  | None => JNull
  | Some (inl n) => JUint n
  | Some (inr s) => JString s
  end.

Definition J_json : rapidjson J :=
  mkRapidjson
    (fun v => match v with JArray _ => true | _ => false end)
    (fun v => match v with JArray l => List.length l | _ => 0 end)
    (fun v i => match v with JArray l => J_item (nth i l None) | _ => JNull end)
    (fun v => match v with JString _ => true | _ => false end)
    (fun v => match v with JString s => s | _ => EmptyString end)
    (fun v => match v with JNull => true | _ => false end)
    (fun v => match v with JUint _ => true | _ => false end)
    (fun v => match v with JUint n => n | _ => 0%N end)
    (fun v => match v with JTrue => true | _ => false end).

(** A resolver that knows every host but "nowhere". *)
Definition resolver (host : option string) (port : N) : option (option string * N) :=
  match host with
  | Some h => if String.eqb h "nowhere" then None else Some (host, port)
  | None => Some (host, port)
  end.

(** A resolver that knows no host at all. *)
Definition no_resolver (host : option string) (port : N)
  : option (option string * N) := None.

Definition document (listen devices : J) (key : string) : J :=
  if String.eqb key "listen" then listen
  else if String.eqb key "devices" then devices
  else JNull.

(** listen: ["localhost", 7890], devices: [] *)
Definition doc_good : string -> J :=
  document (JArray [Some (inr "localhost"%string); Some (inl 7890%N)]) (JArray []).

(** listen: [5, "x"], devices: null *)
Definition doc_all_wrong : string -> J :=
  document (JArray [Some (inl 5%N); Some (inr "x"%string)]) JNull.

(** listen: [5, 7890], devices: [] *)
Definition doc_bad_host : string -> J :=
  document (JArray [Some (inl 5%N); Some (inl 7890%N)]) (JArray []).

(** listen: [null, 7890], devices: [] *)
Definition doc_null_host : string -> J :=
  document (JArray [None; Some (inl 7890%N)]) (JArray []).

End Config.

(** * Concrete servers

    Configuration entries and messages are numbers here.  [accept_all]
    is a world in which FCDevice::probe accepts every handle, open()
    returns 0, probeAfterOpening() returns true and every entry matches;
    in [open_fails] open() returns LIBUSB_ERROR_IO. *)

Definition accept_all : Drivers nat :=
  mkDrivers (fun _ _ => true) (fun _ => 0%Z) (fun _ => true) (fun _ _ => true).

Definition open_fails : Drivers nat :=
  mkDrivers (fun _ _ => true) (fun _ => (-1)%Z) (fun _ => true) (fun _ _ => true).

(** open() fails on the first instance ever constructed and succeeds on
    every later one. *)
Definition open_fails_once : Drivers nat :=
  mkDrivers (fun _ _ => true)
            (fun dev => if self dev =? 0 then (-1)%Z else 0%Z)
            (fun _ => true) (fun _ _ => true).

(** A server configured with two entries, A = 10 and B = 11. *)
Definition boot : FCServer nat nat := FCServer_init nat 0 [10; 11].

(** The same with the entries in the other order. *)
Definition boot_swapped : FCServer nat nat := FCServer_init nat 0 [11; 10].

Definition after (es : list (step nat)) : FCServer nat nat :=
  match run accept_all es boot with
  | Some (_, s) => s
  | None => boot
  end.

Definition arrival_of (device : libusb_device) : step nat :=
  Hotplug device LIBUSB_HOTPLUG_EVENT_DEVICE_ARRIVED.

(** Handles 1, 2 and 3 attached, in this order. *)
Definition server123 : FCServer nat nat :=
  after [arrival_of 1; arrival_of 2; arrival_of 3].

(** Handle 1 delivered twice. *)
Definition server11 : FCServer nat nat :=
  after [arrival_of 1; arrival_of 1].

(** * Properties *)

Unset Implicit Arguments.

Section Properties.

Variables Value Message : Type.
Variable drv : Drivers Value.

Local Abbreviation Server := (FCServer Value Message).

(** ** The monad *)

Lemma bind_Some (A B : Type) (m : M Value Message A) (f : A -> M Value Message B)
      (s : Server) (r : B * Server) :
  bind m f s = Some r <->
  exists a s1, m s = Some (a, s1) /\ f a s1 = Some r.
Proof.
  unfold bind. split.
  - destruct (m s) as [[a s1]|]; [|discriminate].
    intros H. exists a, s1. split; [reflexivity | exact H].
  - intros (a & s1 & Hm & Hf). rewrite Hm. exact Hf.
Qed.

Lemma bind_eq (A B : Type) (m : M Value Message A) (f : A -> M Value Message B)
      (s s1 : Server) (a : A) :
  m s = Some (a, s1) -> bind m f s = f a s1.
Proof. unfold bind. intros ->. reflexivity. Qed.

Lemma is_live_true (dev : USBDevice) (s : Server) :
  In dev (heap s) -> is_live dev s = true.
Proof.
  unfold is_live. destruct (in_dec USBDevice_eq_dec dev (heap s)); tauto.
Qed.

Lemma is_live_In (dev : USBDevice) (s : Server) :
  is_live dev s = true -> In dev (heap s).
Proof.
  unfold is_live. destruct (in_dec USBDevice_eq_dec dev (heap s)); [tauto|discriminate].
Qed.

Lemma remove_head (dev : USBDevice) (h : list USBDevice) :
  remove USBDevice_eq_dec dev (dev :: h) = remove USBDevice_eq_dec dev h.
Proof.
  simpl. destruct (USBDevice_eq_dec dev dev); [reflexivity | contradiction].
Qed.

Ltac live := solve [assumption | left; reflexivity | cbn; auto].

Ltac mstep lem := unfold bind at 1; rewrite lem by live; cbv beta iota.

Ltac fields :=
  cbn [mColor mDevices mUSBDevices heap brk calls
       with_calls with_heap with_vector] in *.

Lemma call_eq (c : Call Message) (s : Server) :
  call c s = Some (tt, with_calls s (calls s ++ [c])).
Proof. reflexivity. Qed.

Lemma method_eq (dev : USBDevice) (c : Call Message) (s : Server) :
  In dev (heap s) ->
  method dev c s = Some (tt, with_calls s (calls s ++ [c])).
Proof. intros H. unfold method. rewrite (is_live_true _ _ H). reflexivity. Qed.

Lemma delete_eq (dev : USBDevice) (s : Server) :
  In dev (heap s) ->
  delete dev s =
  Some (tt, mkFCServer (mColor s) (mDevices s) (mUSBDevices s)
              (remove USBDevice_eq_dec dev (heap s)) (brk s)
              (calls s ++ [CDelete dev])).
Proof. intros H. unfold delete. rewrite (is_live_true _ _ H). reflexivity. Qed.

Lemma new_eq (c : DriverClass) (device : libusb_device) (s : Server) :
  new c device s =
  Some (mkUSBDevice (brk s) c device,
        mkFCServer (mColor s) (mDevices s) (mUSBDevices s)
          (mkUSBDevice (brk s) c device :: heap s) (S (brk s))
          (calls s ++ [CNew (mkUSBDevice (brk s) c device)])).
Proof. reflexivity. Qed.

(** ** usbDeviceArrived, in closed form *)

Lemma usbDeviceArrived_config_eq (cfg : list Value) :
  forall (dev : USBDevice) (i : nat) (s : Server),
    In dev (heap s) ->
    usbDeviceArrived_config drv dev i cfg s =
    Some (match first_match drv dev cfg with
          | Some k =>
              (true,
               mkFCServer (mColor s) (mDevices s)
                 (push_back (mUSBDevices s) dev) (heap s) (brk s)
                 (calls s ++ map (CMatchConfiguration dev) (seq i (S k))
                          ++ [CWriteColorCorrection dev; CPushBack dev]))
          | None =>
              (false,
               with_calls s
                 (calls s ++ map (CMatchConfiguration dev) (seq i (length cfg))))
          end).
Proof.
  induction cfg as [|c rest IH]; intros dev i s Hlive.
  - simpl. unfold ret, with_calls. rewrite app_nil_r. destruct s; reflexivity.
  - cbn [usbDeviceArrived_config first_match].
    mstep method_eq.
    destruct (matchConfiguration drv dev c).
    + mstep method_eq.
      unfold bind, vpush_back, ret. rewrite call_eq. fields.
      cbn [seq map]. rewrite <- !app_assoc. reflexivity.
    + rewrite IH by exact Hlive. fields.
      destruct (first_match drv dev rest) as [k|]; cbn [option_map length seq map];
        unfold with_calls; fields; rewrite <- !app_assoc; reflexivity.
Qed.

Lemma usbDeviceArrived_opened_eq (c : DriverClass) (device : libusb_device)
      (s : Server) (cs : list (Call Message)) :
  let dev := mkUSBDevice (brk s) c device in
  usbDeviceArrived_opened drv dev
    (mkFCServer (mColor s) (mDevices s) (mUSBDevices s) (dev :: heap s)
                (S (brk s)) (calls s ++ cs)) =
  Some (tt,
    if (open drv dev <? 0)%Z then
      mkFCServer (mColor s) (mDevices s) (mUSBDevices s)
        (remove USBDevice_eq_dec dev (heap s)) (S (brk s))
        (calls s ++ cs ++ [COpen dev; CDelete dev])
    else if negb (probeAfterOpening drv dev) then
      mkFCServer (mColor s) (mDevices s) (mUSBDevices s)
        (remove USBDevice_eq_dec dev (heap s)) (S (brk s))
        (calls s ++ cs ++ [COpen dev; CProbeAfterOpening dev; CDelete dev])
    else match first_match drv dev (mDevices s) with
         | Some k =>
             mkFCServer (mColor s) (mDevices s) (push_back (mUSBDevices s) dev)
               (dev :: heap s) (S (brk s))
               (calls s ++ cs ++ [COpen dev; CProbeAfterOpening dev]
                  ++ map (CMatchConfiguration dev) (seq 0 (S k))
                  ++ [CWriteColorCorrection dev; CPushBack dev])
         | None =>
             mkFCServer (mColor s) (mDevices s) (mUSBDevices s)
               (remove USBDevice_eq_dec dev (heap s)) (S (brk s))
               (calls s ++ cs ++ [COpen dev; CProbeAfterOpening dev]
                  ++ map (CMatchConfiguration dev) (seq 0 (length (mDevices s)))
                  ++ [CDelete dev])
         end).
Proof.
  intros dev. unfold usbDeviceArrived_opened.
  mstep method_eq. fields.
  destruct (open drv dev <? 0)%Z.
  - rewrite delete_eq by (left; reflexivity). fields. rewrite remove_head.
    rewrite <- !app_assoc. reflexivity.
  - mstep method_eq. fields.
    destruct (probeAfterOpening drv dev); cbn [negb].
    + unfold bind at 1. fields. unfold bind at 1.
      rewrite usbDeviceArrived_config_eq by (left; reflexivity). fields.
      destruct (first_match drv dev (mDevices s)) as [k|].
      * unfold ret. rewrite <- !app_assoc. reflexivity.
      * unfold with_calls. rewrite delete_eq by (left; reflexivity). fields.
        rewrite remove_head. rewrite <- !app_assoc. reflexivity.
    + rewrite delete_eq by (left; reflexivity). fields. rewrite remove_head.
      rewrite <- !app_assoc. reflexivity.
Qed.

(** usbDeviceArrived always returns, and [attach_state] is what it
    leaves behind. *)
Lemma usbDeviceArrived_eq (device : libusb_device) (s : Server) :
  usbDeviceArrived drv device s = Some (tt, attach_state drv device s).
Proof.
  unfold usbDeviceArrived, attach_state, attach_outcome, probed.
  mstep call_eq. mstep call_eq. fields.
  destruct (probe drv FCDevice device).
  - mstep new_eq. fields.
    rewrite <- !app_assoc.
    rewrite (usbDeviceArrived_opened_eq FCDevice device s).
    cbv zeta.
    destruct (open drv _ <? 0)%Z; [reflexivity|].
    destruct (negb (probeAfterOpening drv _)); [reflexivity|].
    destruct (first_match drv _ (mDevices s)); reflexivity.
  - mstep call_eq. fields.
    destruct (probe drv EnttecDMXDevice device).
    + mstep new_eq. fields.
      rewrite <- !app_assoc.
      rewrite (usbDeviceArrived_opened_eq EnttecDMXDevice device s).
      cbv zeta.
      destruct (open drv _ <? 0)%Z; [reflexivity|].
      destruct (negb (probeAfterOpening drv _)); [reflexivity|].
      destruct (first_match drv _ (mDevices s)); reflexivity.
    + unfold ret, with_calls. fields. rewrite <- !app_assoc. reflexivity.
Qed.

(** ** The scan of the configuration entries *)

Lemma first_match_None (dev : USBDevice) (cfg : list Value) :
  first_match drv dev cfg = None <->
  existsb (matchConfiguration drv dev) cfg = false.
Proof.
  induction cfg as [|c rest IH]; simpl; [tauto|].
  destruct (matchConfiguration drv dev c); simpl.
  - split; discriminate.
  - destruct (first_match drv dev rest); simpl in *.
    + split; [discriminate|]. intros H. apply IH in H. discriminate.
    + split; [intros _; apply IH; reflexivity | reflexivity].
Qed.

Lemma first_match_Some (dev : USBDevice) (cfg : list Value) (k : nat) :
  first_match drv dev cfg = Some k ->
  existsb (matchConfiguration drv dev) cfg = true.
Proof.
  intros H. destruct (existsb (matchConfiguration drv dev) cfg) eqn:E; [reflexivity|].
  apply first_match_None in E. congruence.
Qed.

Lemma first_match_least (dev : USBDevice) (cfg : list Value) :
  forall (i : nat) (v : Value),
    nth_error cfg i = Some v ->
    matchConfiguration drv dev v = true ->
    (forall j w, j < i -> nth_error cfg j = Some w ->
                 matchConfiguration drv dev w = false) ->
    first_match drv dev cfg = Some i.
Proof.
  induction cfg as [|c rest IH]; intros i v Hnth Hv Hbefore.
  - destruct i; discriminate.
  - destruct i as [|i]; simpl in *.
    + injection Hnth as ->. rewrite Hv. reflexivity.
    + rewrite (Hbefore 0 c) by (try lia; reflexivity).
      rewrite (IH i v Hnth Hv); [reflexivity|].
      intros j w Hj Hw. apply (Hbefore (S j) w); [lia | exact Hw].
Qed.

Lemma consulted_app (dev : USBDevice) (a b : list (Call Message)) :
  consulted dev (a ++ b) = consulted dev a ++ consulted dev b.
Proof. apply flat_map_app. Qed.

Lemma consulted_matches (dev : USBDevice) (l : list nat) :
  consulted dev (map (@CMatchConfiguration Message dev) l) = l.
Proof.
  induction l as [|i l IH]; [reflexivity|].
  cbn [map]. unfold consulted in *. cbn [flat_map]. rewrite IH.
  destruct (USBDevice_eq_dec dev dev); [reflexivity | contradiction].
Qed.

Lemma consulted_probe_calls (dev : USBDevice) :
  consulted dev (probe_calls (Message:=Message) dev) = [].
Proof. unfold probe_calls. destruct (cls dev); reflexivity. Qed.

Lemma assignment_first (cfg : list Value) (dev : USBDevice) (i : nat) (v : Value)
      (cs : list (Call Message)) :
  consulted dev cs = seq 0 (S i) ->
  nth_error cfg i = Some v ->
  matchConfiguration drv dev v = true ->
  assignment drv cfg dev cs = Some i.
Proof.
  intros Hc Hnth Hv. unfold assignment. rewrite Hc.
  rewrite seq_S, fold_left_app. cbn [fold_left Nat.add].
  rewrite Hnth, Hv. reflexivity.
Qed.

(** ** What an attach attempt leaves behind *)

Lemma attach_state_calls (device : libusb_device) (s : Server) :
  calls (attach_state drv device s) =
  calls s ++ attach_calls device (length (mDevices s)) (attach_outcome drv device s).
Proof.
  unfold attach_state. destruct (attach_outcome drv device s); reflexivity.
Qed.

Lemma attach_state_vector (device : libusb_device) (s : Server) :
  mUSBDevices (attach_state drv device s) =
  match attach_outcome drv device s with
  | Attached dev _ => push_back (mUSBDevices s) dev
  | _ => mUSBDevices s
  end.
Proof.
  unfold attach_state. destruct (attach_outcome drv device s); reflexivity.
Qed.

Lemma attach_state_heap (device : libusb_device) (s : Server) :
  heap (attach_state drv device s) =
  match attach_outcome drv device s with
  | Attached dev _ => dev :: heap s
  | UnmatchedDriver => heap s
  | OpenFailed dev | PostOpenProbeFailed dev | NoConfigMatch dev =>
      remove USBDevice_eq_dec dev (heap s)
  end.
Proof.
  unfold attach_state. destruct (attach_outcome drv device s); reflexivity.
Qed.

Lemma attach_state_brk (device : libusb_device) (s : Server) :
  brk (attach_state drv device s) =
  match attach_outcome drv device s with
  | UnmatchedDriver => brk s
  | _ => S (brk s)
  end.
Proof.
  unfold attach_state. destruct (attach_outcome drv device s); reflexivity.
Qed.

Lemma attach_state_config (device : libusb_device) (s : Server) :
  mDevices (attach_state drv device s) = mDevices s
  /\ mColor (attach_state drv device s) = mColor s.
Proof.
  unfold attach_state. destruct (attach_outcome drv device s); split; reflexivity.
Qed.

Lemma attach_outcome_dev (device : libusb_device) (s : Server) (dev : USBDevice) :
  outcome_dev (attach_outcome drv device s) = Some dev ->
  self dev = brk s /\ mDevice dev = device /\ probed drv device = Some (cls dev).
Proof.
  unfold attach_outcome. destruct (probed drv device) as [c|]; [|discriminate].
  cbv zeta. destruct (open drv _ <? 0)%Z.
  { intros [= <-]. auto. }
  destruct (negb _).
  { intros [= <-]. auto. }
  destruct (first_match drv _ _); intros [= <-]; auto.
Qed.

Lemma flat_map_matches (A : Type) (f : Call Message -> list A) (dev : USBDevice)
      (l : list nat) :
  (forall i, f (CMatchConfiguration dev i) = []) ->
  flat_map f (map (CMatchConfiguration dev) l) = [].
Proof.
  intros H. induction l as [|i l IH]; [reflexivity|].
  cbn [map flat_map]. rewrite H, IH. reflexivity.
Qed.

Lemma pushes_attach_calls (device : libusb_device) (n : nat) (o : outcome) :
  pushes (attach_calls (Message:=Message) device n o) =
  match o with Attached dev _ => [dev] | _ => [] end.
Proof.
  unfold pushes, attach_calls, probe_calls.
  destruct o as [dev k| |dev|dev|dev]; try reflexivity;
    rewrite ?flat_map_app, ?flat_map_matches by reflexivity;
    destruct (cls dev); reflexivity.
Qed.

Lemma colors_attach_calls (device : libusb_device) (n : nat) (o : outcome) :
  colors (attach_calls (Message:=Message) device n o) =
  match o with Attached dev _ => [dev] | _ => [] end.
Proof.
  unfold colors, attach_calls, probe_calls.
  destruct o as [dev k| |dev|dev|dev]; try reflexivity;
    rewrite ?flat_map_app, ?flat_map_matches by reflexivity;
    destruct (cls dev); reflexivity.
Qed.

Lemma news_attach_calls (device : libusb_device) (n : nat) (o : outcome) :
  news (attach_calls (Message:=Message) device n o) =
  match outcome_dev o with Some dev => [dev] | None => [] end.
Proof.
  unfold news, attach_calls, probe_calls.
  destruct o as [dev k| |dev|dev|dev]; try reflexivity;
    rewrite ?flat_map_app, ?flat_map_matches by reflexivity;
    destruct (cls dev); reflexivity.
Qed.

Lemma deletes_attach_calls (device : libusb_device) (n : nat) (o : outcome) :
  deletes (attach_calls (Message:=Message) device n o) =
  match o with
  | Attached _ _ | UnmatchedDriver => []
  | OpenFailed dev | PostOpenProbeFailed dev | NoConfigMatch dev => [dev]
  end.
Proof.
  unfold deletes, attach_calls, probe_calls.
  destruct o as [dev k| |dev|dev|dev]; try reflexivity;
    rewrite ?flat_map_app, ?flat_map_matches by reflexivity;
    destruct (cls dev); reflexivity.
Qed.

Lemma departures_attach_calls (device : libusb_device) (n : nat) (o : outcome) :
  departures (attach_calls (Message:=Message) device n o) = [].
Proof.
  unfold departures, attach_calls, probe_calls.
  destruct o as [dev k| |dev|dev|dev]; try reflexivity;
    rewrite ?flat_map_app, ?flat_map_matches by reflexivity;
    destruct (cls dev); reflexivity.
Qed.

Lemma arrivals_attach_calls (device : libusb_device) (s : Server) :
  arrivals (attach_calls (Message:=Message) device (length (mDevices s))
              (attach_outcome drv device s)) = [device].
Proof.
  pose proof (attach_outcome_dev device s) as Hd.
  unfold arrivals, attach_calls, probe_calls.
  destruct (attach_outcome drv device s) as [dev k| |dev|dev|dev]; try reflexivity;
    destruct (Hd dev eq_refl) as (_ & -> & _);
    rewrite ?flat_map_app, ?flat_map_matches by reflexivity;
    destruct (cls dev); reflexivity.
Qed.

(** ** Claims on usbDeviceArrived *)

(** C2.  An attach attempt always returns.  The instance it constructs is
    appended to mUSBDevices (one push_back) when open() returned a
    non-negative result, probeAfterOpening() returned true and some entry
    of mDevices made matchConfiguration return true; when one of the three
    fails, or no driver probe accepts, mUSBDevices is left as it was and
    nothing is pushed. *)
Theorem usbDeviceArrived_registers_iff_accepted
        (device : libusb_device) (s : Server) :
  exists s' cs,
    usbDeviceArrived drv device s = Some (tt, s') /\
    calls s' = calls s ++ cs /\
    match probed drv device with
    | None => mUSBDevices s' = mUSBDevices s /\ pushes cs = []
    | Some c =>
        let dev := mkUSBDevice (brk s) c device in
        if (0 <=? open drv dev)%Z && probeAfterOpening drv dev
           && existsb (matchConfiguration drv dev) (mDevices s)
        then registered s' = registered s ++ [dev] /\ pushes cs = [dev]
        else mUSBDevices s' = mUSBDevices s /\ pushes cs = []
    end.
Proof.
  exists (attach_state drv device s).
  exists (attach_calls device (length (mDevices s)) (attach_outcome drv device s)).
  split; [apply usbDeviceArrived_eq|].
  split; [apply attach_state_calls|].
  unfold registered.
  rewrite attach_state_vector, pushes_attach_calls.
  unfold attach_outcome.
  destruct (probed drv device) as [c|]; [|split; reflexivity].
  cbv zeta. set (dev := mkUSBDevice (brk s) c device).
  rewrite Z.ltb_antisym.
  destruct (0 <=? open drv dev)%Z; cbn [negb andb]; [|split; reflexivity].
  destruct (probeAfterOpening drv dev); cbn [negb andb]; [|split; reflexivity].
  destruct (first_match drv dev (mDevices s)) as [k|] eqn:E.
  - rewrite (first_match_Some _ _ _ E). split; reflexivity.
  - apply first_match_None in E. rewrite E. split; reflexivity.
Qed.

(** C3.  The scan of mDevices stops at the first entry the opened device
    accepts: when entry [i] is accepted and no entry before it is, the
    entries asked about are exactly 0..i, no entry behind [i] is asked
    about (whether the device would accept it or not), the device's
    assignment is entry [i], and the device is registered. *)
Theorem usbDeviceArrived_first_match
        (device : libusb_device) (s : Server) (c : DriverClass)
        (i : nat) (v : Value) :
  probed drv device = Some c ->
  let dev := mkUSBDevice (brk s) c device in
  (0 <= open drv dev)%Z ->
  probeAfterOpening drv dev = true ->
  nth_error (mDevices s) i = Some v ->
  matchConfiguration drv dev v = true ->
  (forall j w, j < i -> nth_error (mDevices s) j = Some w ->
               matchConfiguration drv dev w = false) ->
  exists s' cs,
    usbDeviceArrived drv device s = Some (tt, s') /\
    calls s' = calls s ++ cs /\
    registered s' = registered s ++ [dev] /\
    consulted dev cs = seq 0 (S i) /\
    (forall j, i < j -> ~ In j (consulted dev cs)) /\
    assignment drv (mDevices s) dev cs = Some i.
Proof.
  intros Hprobe dev Hopen Hpao Hnth Hv Hbefore.
  assert (Ho : attach_outcome drv device s = Attached dev i).
  { unfold attach_outcome. rewrite Hprobe. cbv zeta. fold dev.
    replace (open drv dev <? 0)%Z with false by (symmetry; apply Z.ltb_ge; exact Hopen).
    rewrite Hpao. cbn [negb].
    rewrite (first_match_least dev (mDevices s) i v Hnth Hv Hbefore). reflexivity. }
  assert (Hc : consulted dev
                 (attach_calls (Message:=Message) device (length (mDevices s))
                    (Attached dev i)) = seq 0 (S i)).
  { cbn [attach_calls]. rewrite !consulted_app, consulted_probe_calls, consulted_matches.
    cbn [app]. unfold consulted. cbn [flat_map]. rewrite !app_nil_r. reflexivity. }
  exists (attach_state drv device s).
  exists (attach_calls device (length (mDevices s)) (Attached dev i)).
  split; [apply usbDeviceArrived_eq|].
  split; [rewrite attach_state_calls, Ho; reflexivity|].
  split; [unfold registered; rewrite attach_state_vector, Ho; reflexivity|].
  split; [exact Hc|].
  split.
  - intros j Hj. rewrite Hc. rewrite in_seq. lia.
  - exact (assignment_first (mDevices s) dev i v _ Hc Hnth Hv).
Qed.

Lemma existsb_all_false (A : Type) (f : A -> bool) (l : list A) :
  (forall v, In v l -> f v = false) -> existsb f l = false.
Proof.
  intros H. induction l as [|a l IH]; [reflexivity|].
  cbn [existsb]. rewrite (H a (or_introl eq_refl)). cbn [orb].
  apply IH. intros v Hv. apply H. right. exact Hv.
Qed.

Lemma in_remove_iff (d dev : USBDevice) (h : list USBDevice) :
  In d (remove USBDevice_eq_dec dev h) <-> In d h /\ ~ In d [dev].
Proof.
  split.
  - intros H. apply in_remove in H. cbn. intuition congruence.
  - intros [H Hn]. apply in_in_remove; [|exact H]. cbn in Hn. intuition congruence.
Qed.

(** C5.  On each of the four rejection paths (no probe accepts, open()
    negative, probeAfterOpening() false, no entry of mDevices matches) the
    attempt returns with mUSBDevices exactly as before; what it
    constructed (at most one instance) it has deleted, so that instance is
    no longer live while every other object is as live as it was. *)
Theorem usbDeviceArrived_rejection_atomic (device : libusb_device) (s : Server) :
  (probed drv device = None \/
   exists c, probed drv device = Some c /\
     let dev := mkUSBDevice (brk s) c device in
     ((open drv dev < 0)%Z \/
      probeAfterOpening drv dev = false \/
      (forall v, In v (mDevices s) -> matchConfiguration drv dev v = false))) ->
  exists s' cs,
    usbDeviceArrived drv device s = Some (tt, s') /\
    calls s' = calls s ++ cs /\
    mUSBDevices s' = mUSBDevices s /\
    pushes cs = [] /\
    deletes cs = news cs /\
    length (news cs) <= 1 /\
    (probed drv device = None <-> news cs = []) /\
    (forall d, In d (heap s') <-> In d (heap s) /\ ~ In d (news cs)).
Proof.
  intros Hrej.
  assert (Ho : match attach_outcome drv device s with
               | Attached _ _ => False
               | UnmatchedDriver => probed drv device = None
               | _ => probed drv device <> None
               end).
  { unfold attach_outcome. destruct Hrej as [Hp | (c & Hp & Hdev)].
    - rewrite Hp. reflexivity.
    - rewrite Hp. cbv zeta in *. destruct (open drv _ <? 0)%Z eqn:Eo; [discriminate|].
      destruct (probeAfterOpening drv _) eqn:Ep; cbn [negb]; [|discriminate].
      destruct Hdev as [Hlt | [Hf | Hall]].
      + apply Z.ltb_ge in Eo. lia.
      + discriminate.
      + apply existsb_all_false in Hall. apply first_match_None in Hall.
        rewrite Hall. discriminate. }
  exists (attach_state drv device s).
  exists (attach_calls device (length (mDevices s)) (attach_outcome drv device s)).
  split; [apply usbDeviceArrived_eq|].
  split; [apply attach_state_calls|].
  rewrite attach_state_vector, attach_state_heap, pushes_attach_calls,
    deletes_attach_calls, news_attach_calls.
  destruct (attach_outcome drv device s) as [dev k| |dev|dev|dev];
    cbn [outcome_dev length]; try contradiction.
  - do 3 (split; [reflexivity|]). split; [cbn; lia|].
    split; [tauto|]. intros d. cbn. tauto.
  - do 3 (split; [reflexivity|]). split; [cbn; lia|].
    split; [split; [contradiction | discriminate]|].
    intros d. apply in_remove_iff.
  - do 3 (split; [reflexivity|]). split; [cbn; lia|].
    split; [split; [contradiction | discriminate]|].
    intros d. apply in_remove_iff.
  - do 3 (split; [reflexivity|]). split; [cbn; lia|].
    split; [split; [contradiction | discriminate]|].
    intros d. apply in_remove_iff.
Qed.

(** ** The vector *)

Lemma vat_split (v : vector) (l1 l2 : list USBDevice) (d : USBDevice) :
  elems v = l1 ++ d :: l2 -> vat v (length l1) = Some d.
Proof.
  intros H. unfold vat. rewrite H.
  rewrite nth_error_app2 by lia. rewrite Nat.sub_diag. reflexivity.
Qed.

Lemma erase_split (v : vector) (l1 l2 : list USBDevice) (d : USBDevice) :
  elems v = l1 ++ d :: l2 ->
  erase v (length l1) =
  Some (mkVector (l1 ++ l2)).
Proof.
  intros H. unfold erase, vsize. rewrite H.
  replace (length l1 <? length (l1 ++ d :: l2)) with true
    by (symmetry; apply Nat.ltb_lt; rewrite length_app; cbn; lia).
  rewrite firstn_app, Nat.sub_diag, firstn_all. cbn [firstn]. rewrite app_nil_r.
  replace (S (length l1)) with (length (l1 ++ [d])) by (rewrite length_app; cbn; lia).
  replace (l1 ++ d :: l2) with ((l1 ++ [d]) ++ l2) at 1
    by (rewrite <- app_assoc; reflexivity).
  rewrite skipn_app, skipn_all, Nat.sub_diag. reflexivity.
Qed.

Lemma erase_inv (v v' : vector) (i : nat) :
  erase v i = Some v' ->
  exists l1 d l2,
    elems v = l1 ++ d :: l2 /\ length l1 = i /\ nth_error (elems v) i = Some d.
Proof.
  unfold erase. destruct (i <? vsize v) eqn:E; [|discriminate]. intros _.
  apply Nat.ltb_lt in E. unfold vsize in E.
  destruct (nth_error (elems v) i) as [d|] eqn:Hd.
  - destruct (nth_error_split _ _ Hd) as (l1 & l2 & H1 & H2).
    exists l1, d, l2. auto.
  - apply nth_error_None in Hd. lia.
Qed.

(** ** usbDeviceLeft, in closed form *)

Lemma usbDeviceLeft_iter_eq (s : Server) (l1 l2 : list USBDevice) (d : USBDevice) :
  registered s = l1 ++ d :: l2 ->
  In d (heap s) ->
  usbDeviceLeft_iter (length l1) s = Some (tt, detach_state s l1 d l2).
Proof.
  intros Hreg Hlive. unfold usbDeviceLeft_iter.
  unfold bind at 1. unfold deref. rewrite (vat_split _ _ _ _ Hreg).
  mstep call_eq. unfold bind at 1. unfold verase. fields.
  rewrite (erase_split _ _ _ _ Hreg). rewrite call_eq. fields.
  rewrite delete_eq by live. fields.
  unfold detach_state. rewrite <- !app_assoc. reflexivity.
Qed.

Lemma usbDeviceLeft_iter_inv (i : nat) (s s' : Server) :
  usbDeviceLeft_iter i s = Some (tt, s') ->
  exists l1 d l2,
    registered s = l1 ++ d :: l2 /\ length l1 = i /\ In d (heap s)
    /\ s' = detach_state s l1 d l2.
Proof.
  unfold usbDeviceLeft_iter. intros H.
  apply bind_Some in H. destruct H as (dev & s1 & Hderef & H).
  unfold deref in Hderef.
  destruct (vat (mUSBDevices s) i) as [dev'|] eqn:Hat; [|discriminate].
  injection Hderef as -> <-.
  apply bind_Some in H. destruct H as ([] & s2 & Hcall & H).
  rewrite call_eq in Hcall. injection Hcall as <-.
  apply bind_Some in H. destruct H as ([] & s3 & Herase & H).
  unfold verase in Herase. fields.
  destruct (erase (mUSBDevices s) i) as [v|] eqn:He; [|discriminate].
  destruct (erase_inv _ _ _ He) as (l1 & d & l2 & Hel & Hlen & Hnth).
  assert (Hd : dev = d) by (unfold vat in Hat; congruence).
  subst dev.
  unfold delete in H. destruct (is_live d s3) eqn:Hl; [|discriminate].
  rewrite call_eq in Herase. injection Herase as <-.
  apply is_live_In in Hl. fields.
  exists l1, d, l2. split; [exact Hel|]. split; [exact Hlen|]. split; [exact Hl|].
  pose proof (usbDeviceLeft_iter_eq s l1 l2 d Hel Hl) as Heq.
  rewrite Hlen in Heq. unfold usbDeviceLeft_iter in Heq.
  unfold bind at 1 in Heq. unfold deref in Heq. rewrite Hat in Heq.
  unfold bind at 1 in Heq. rewrite call_eq in Heq.
  unfold bind at 1 in Heq. unfold verase in Heq. fields.
  rewrite He, call_eq in Heq. unfold delete in Heq.
  rewrite (is_live_true d _) in Heq by (fields; exact Hl).
  fields. congruence.
Qed.

Lemma getDevice_eq (dev : USBDevice) (s : Server) :
  In dev (heap s) -> getDevice dev s = Some (mDevice dev, s).
Proof. intros H. unfold getDevice. rewrite (is_live_true _ _ H). reflexivity. Qed.

Lemma deref_eq (s : Server) (l1 l2 : list USBDevice) (d : USBDevice) :
  registered s = l1 ++ d :: l2 -> deref (length l1) s = Some (d, s).
Proof. intros H. unfold deref. rewrite (vat_split _ _ _ _ H). reflexivity. Qed.

Lemma vnext_eq (s : Server) (l1 l2 : list USBDevice) (d : USBDevice) :
  registered s = l1 ++ d :: l2 -> vnext (length l1) s = Some (S (length l1), s).
Proof.
  intros H. unfold vnext, vsize. change (elems (mUSBDevices s)) with (registered s).
  rewrite H. replace (length l1 <? length (l1 ++ d :: l2)) with true; [reflexivity|].
  symmetry. apply Nat.ltb_lt. rewrite length_app. cbn. lia.
Qed.

Lemma vnext_inv (i i' : nat) (s s' : Server) :
  vnext i s = Some (i', s') -> i < vsize (mUSBDevices s) /\ i' = S i /\ s' = s.
Proof.
  unfold vnext. destruct (i <? vsize (mUSBDevices s)) eqn:E; [|discriminate].
  intros [= <- <-]. apply Nat.ltb_lt in E. auto.
Qed.

Lemma usbDeviceLeft_loop_absent (device : libusb_device) (post : list USBDevice) :
  forall (pre : list USBDevice) (s : Server),
    registered s = pre ++ post ->
    (forall d, In d post -> In d (heap s)) ->
    (forall d, In d post -> mDevice d <> device) ->
    usbDeviceLeft_loop device (length post) (length pre) s = Some (tt, s).
Proof.
  induction post as [|x rest IH]; intros pre s Hreg Hlive Hno; [reflexivity|].
  cbn [length usbDeviceLeft_loop].
  unfold bind at 1. rewrite (deref_eq s pre rest x Hreg).
  unfold bind at 1. rewrite getDevice_eq by (apply Hlive; left; reflexivity).
  replace (mDevice x =? device) with false
    by (symmetry; apply Nat.eqb_neq; apply Hno; left; reflexivity).
  unfold bind at 1. rewrite (vnext_eq s pre rest x Hreg).
  replace (S (length pre)) with (length (pre ++ [x])) by (rewrite length_app; cbn; lia).
  apply IH.
  - rewrite <- app_assoc. exact Hreg.
  - intros d Hd. apply Hlive. right. exact Hd.
  - intros d Hd. apply Hno. right. exact Hd.
Qed.

Lemma usbDeviceLeft_loop_first (device : libusb_device) (l1 : list USBDevice) :
  forall (pre l2 : list USBDevice) (d : USBDevice) (s : Server),
    registered s = pre ++ l1 ++ d :: l2 ->
    (forall x, In x l1 -> In x (heap s)) ->
    In d (heap s) ->
    (forall x, In x l1 -> mDevice x <> device) ->
    mDevice d = device ->
    usbDeviceLeft_loop device (length (l1 ++ d :: l2)) (length pre) s =
    usbDeviceLeft_iter (length (pre ++ l1)) s.
Proof.
  induction l1 as [|x rest IH]; intros pre l2 d s Hreg Hlive Hd Hno Hdev.
  - cbn [app length usbDeviceLeft_loop]. rewrite app_nil_r.
    unfold bind at 1. rewrite (deref_eq s pre l2 d Hreg).
    unfold bind at 1. rewrite getDevice_eq by exact Hd.
    rewrite Hdev, Nat.eqb_refl. reflexivity.
  - cbn [app length usbDeviceLeft_loop].
    unfold bind at 1. rewrite (deref_eq s pre (rest ++ d :: l2) x Hreg).
    unfold bind at 1. rewrite getDevice_eq by (apply Hlive; left; reflexivity).
    replace (mDevice x =? device) with false
      by (symmetry; apply Nat.eqb_neq; apply Hno; left; reflexivity).
    unfold bind at 1. rewrite (vnext_eq s pre (rest ++ d :: l2) x Hreg).
    replace (S (length pre)) with (length (pre ++ [x])) by (rewrite length_app; cbn; lia).
    rewrite (IH (pre ++ [x]) l2 d s).
    + rewrite <- app_assoc. reflexivity.
    + rewrite <- app_assoc. exact Hreg.
    + intros y Hy. apply Hlive. right. exact Hy.
    + exact Hd.
    + intros y Hy. apply Hno. right. exact Hy.
    + exact Hdev.
Qed.

Lemma split_first_handle (device : libusb_device) (l : list USBDevice) :
  In device (map mDevice l) ->
  exists l1 d l2,
    l = l1 ++ d :: l2 /\ mDevice d = device /\ ~ In device (map mDevice l1).
Proof.
  induction l as [|x rest IH]; [contradiction|].
  intros Hin. destruct (Nat.eq_dec (mDevice x) device) as [E|E].
  - exists [], x, rest. auto.
  - destruct Hin as [Hx|Hin]; [contradiction|].
    destruct (IH Hin) as (l1 & d & l2 & -> & Hd & Hl1).
    exists (x :: l1), d, l2. split; [reflexivity|]. split; [exact Hd|].
    cbn. tauto.
Qed.

Lemma not_in_handles (device : libusb_device) (l : list USBDevice) :
  ~ In device (map mDevice l) -> forall d, In d l -> mDevice d <> device.
Proof.
  intros H d Hd E. apply H. rewrite <- E. apply in_map. exact Hd.
Qed.

(** usbDeviceLeft on a handle whose first registered object is [d]. *)
Lemma usbDeviceLeft_first_eq (device : libusb_device) (s : Server)
      (l1 l2 : list USBDevice) (d : USBDevice) :
  registered s = l1 ++ d :: l2 ->
  mDevice d = device ->
  ~ In device (map mDevice l1) ->
  (forall x, In x l1 -> In x (heap s)) ->
  In d (heap s) ->
  usbDeviceLeft device s = Some (tt, detach_state s l1 d l2).
Proof.
  intros Hreg Hd Hl1 Hlive Hdl.
  unfold usbDeviceLeft, bind, vend, vsize.
  change (elems (mUSBDevices s)) with (registered s). rewrite Hreg.
  pose proof (usbDeviceLeft_loop_first device l1 [] l2 d s Hreg Hlive Hdl
                (not_in_handles _ _ Hl1) Hd) as Hloop.
  cbn [length app] in Hloop. rewrite Hloop.
  apply usbDeviceLeft_iter_eq; assumption.
Qed.

Lemma usbDeviceLeft_absent_eq (device : libusb_device) (s : Server) :
  ~ In device (handles s) ->
  (forall d, In d (registered s) -> In d (heap s)) ->
  usbDeviceLeft device s = Some (tt, s).
Proof.
  intros Hno Hlive. unfold usbDeviceLeft, bind, vend, vsize.
  change (elems (mUSBDevices s)) with (registered s).
  apply (usbDeviceLeft_loop_absent device (registered s) [] s eq_refl Hlive).
  apply not_in_handles. exact Hno.
Qed.

(** ** Claims on usbDeviceLeft *)

(** C8.  With every registered object live, usbDeviceLeft on a handle
    returns.  When some registered object has that handle, the first such
    entry is erased from mUSBDevices and the object is deleted (the only
    calls made); when none has, the server is exactly as before: nothing
    is erased and nothing deleted. *)
Theorem usbDeviceLeft_removes_or_noop (device : libusb_device) (s : Server) :
  (forall d, In d (registered s) -> In d (heap s)) ->
  exists s',
    usbDeviceLeft device s = Some (tt, s') /\
    (In device (handles s) ->
     exists l1 d l2,
       registered s = l1 ++ d :: l2 /\ mDevice d = device /\
       ~ In device (map mDevice l1) /\
       registered s' = l1 ++ l2 /\
       calls s' = calls s ++ [CLeft d; CErase d; CDelete d] /\
       ~ In d (heap s') /\
       (forall x, x <> d -> (In x (heap s') <-> In x (heap s)))) /\
    (~ In device (handles s) -> s' = s).
Proof.
  intros Hlive.
  destruct (in_dec Nat.eq_dec device (handles s)) as [Hin|Hno].
  - destruct (split_first_handle device (registered s) Hin)
      as (l1 & d & l2 & Hreg & Hd & Hl1).
    exists (detach_state s l1 d l2). split.
    + apply usbDeviceLeft_first_eq; try assumption.
      * intros x Hx. apply Hlive. rewrite Hreg. apply in_or_app. left. exact Hx.
      * apply Hlive. rewrite Hreg. apply in_or_app. right. left. reflexivity.
    + split; [|contradiction]. intros _.
      exists l1, d, l2.
      split; [exact Hreg|]. split; [exact Hd|]. split; [exact Hl1|].
      split; [reflexivity|]. split; [reflexivity|].
      unfold detach_state. fields. split.
      * apply remove_In.
      * intros x Hx. rewrite in_remove_iff. cbn. intuition congruence.
  - exists s. split; [apply usbDeviceLeft_absent_eq; assumption|].
    split; [contradiction | reflexivity].
Qed.

(** C10.  One call of usbDeviceLeft erases one entry.  When the first
    registered object with the handle is [d], the entries before and
    behind it stay as they are: objects behind it with the same handle
    remain registered and are not deleted, and the handle occurs once less
    among the registered handles. *)
Theorem usbDeviceLeft_removes_first_only (device : libusb_device) (s : Server)
        (l1 l2 : list USBDevice) (d : USBDevice) :
  registered s = l1 ++ d :: l2 ->
  mDevice d = device ->
  ~ In device (map mDevice l1) ->
  (forall x, In x (l1 ++ [d]) -> In x (heap s)) ->
  exists s',
    usbDeviceLeft device s = Some (tt, s') /\
    registered s' = l1 ++ l2 /\
    calls s' = calls s ++ [CLeft d; CErase d; CDelete d] /\
    (forall x, In x l2 -> In x (registered s')) /\
    (forall x, In x l2 -> x <> d -> In x (heap s) -> In x (heap s')) /\
    S (count_occ Nat.eq_dec (handles s') device) =
    count_occ Nat.eq_dec (handles s) device.
Proof.
  intros Hreg Hd Hl1 Hlive.
  exists (detach_state s l1 d l2). split.
  - apply usbDeviceLeft_first_eq; try assumption.
    + intros x Hx. apply Hlive. apply in_or_app. left. exact Hx.
    + apply Hlive. apply in_or_app. right. left. reflexivity.
  - unfold detach_state, handles, registered in *. fields. cbn [elems].
    split; [reflexivity|].
    split; [reflexivity|].
    split; [intros x Hx; apply in_or_app; right; exact Hx|].
    split.
    + intros x Hx Hne Hh. apply in_remove_iff. cbn. intuition congruence.
    + rewrite Hreg, !map_app, !count_occ_app. cbn [map count_occ].
      destruct (Nat.eq_dec (mDevice d) device); [lia | contradiction].
Qed.

(** ** Loops that only read mUSBDevices *)

Lemma for_iter_method (f : USBDevice -> Call Message) (post : list USBDevice) :
  forall (pre : list USBDevice) (s : Server),
    registered s = pre ++ post ->
    (forall d, In d post -> In d (heap s)) ->
    for_iter (length post) (length pre)
      (fun i _ => bind (deref i) (fun dev => method dev (f dev))) tt s =
    Some (tt, with_calls s (calls s ++ map f post)).
Proof.
  induction post as [|x rest IH]; intros pre s Hreg Hlive.
  - cbn. unfold ret, with_calls. rewrite app_nil_r. destruct s; reflexivity.
  - cbn [length for_iter map].
    unfold bind at 1. unfold bind at 1. rewrite (deref_eq s pre rest x Hreg).
    rewrite method_eq by (apply Hlive; left; reflexivity).
    unfold bind at 1. rewrite (vnext_eq _ pre rest x) by exact Hreg.
    replace (S (length pre)) with (length (pre ++ [x])) by (rewrite length_app; cbn; lia).
    rewrite IH.
    + unfold with_calls. fields. rewrite <- app_assoc. reflexivity.
    + unfold registered, with_calls in *. fields. rewrite <- app_assoc. exact Hreg.
    + intros d Hd. unfold with_calls. fields. apply Hlive. right. exact Hd.
Qed.

Lemma for_iter_method_all (f : USBDevice -> Call Message) (n : nat) (s : Server) :
  n = length (registered s) ->
  (forall d, In d (registered s) -> In d (heap s)) ->
  for_iter n 0 (fun i _ => bind (deref i) (fun dev => method dev (f dev))) tt s =
  Some (tt, with_calls s (calls s ++ map f (registered s))).
Proof.
  intros -> Hlive. exact (for_iter_method f (registered s) [] s eq_refl Hlive).
Qed.

Lemma cbMessage_eq (msg : Message) (s : Server) :
  (forall d, In d (registered s) -> In d (heap s)) ->
  cbMessage msg s =
  Some (tt, with_calls s
              (calls s ++ [CLock]
               ++ map (fun d => CWriteMessage d msg) (registered s)
               ++ [CUnlock])).
Proof.
  intros Hlive. unfold cbMessage.
  mstep call_eq. unfold bind at 1. unfold vend, vsize. fields.
  unfold bind at 1.
  rewrite (for_iter_method_all (fun d => CWriteMessage d msg)) by (reflexivity || exact Hlive).
  rewrite call_eq. unfold registered. unfold with_calls. fields. rewrite <- !app_assoc. reflexivity.
Qed.

Lemma mainLoop_flush_eq (s : Server) :
  (forall d, In d (registered s) -> In d (heap s)) ->
  mainLoop_flush s =
  Some (tt, with_calls s
              (calls s ++ [CLock] ++ map (@CFlush Message) (registered s)
               ++ [CUnlock])).
Proof.
  intros Hlive. unfold mainLoop_flush.
  mstep call_eq. unfold bind at 1. unfold vend, vsize. fields.
  unfold bind at 1.
  rewrite (for_iter_method_all (@CFlush Message)) by (reflexivity || exact Hlive).
  rewrite call_eq. unfold registered. unfold with_calls. fields. rewrite <- !app_assoc. reflexivity.
Qed.

Lemma writes_map (msg : Message) (l : list USBDevice) :
  writes (map (fun d => CWriteMessage d msg) l) = map (fun d => (d, msg)) l.
Proof.
  induction l as [|x l IH]; [reflexivity|].
  cbn [map]. unfold writes in *. cbn [flat_map app]. rewrite IH. reflexivity.
Qed.

(** C6.  With every registered object live, cbMessage returns and leaves
    the server unchanged but for the calls it made: under the lock, one
    writeMessage per registered device, in registration order, and no
    other call.  So a registered device is written to as often as it is
    registered (once, when the registered objects are distinct) and an
    object that is not registered is not written to.  writeMessage hands
    nothing back to the loop, which has no way out before its end. *)
Theorem cbMessage_writes_each_registered_once (msg : Message) (s : Server) :
  (forall d, In d (registered s) -> In d (heap s)) ->
  exists s' cs,
    cbMessage msg s = Some (tt, s') /\
    calls s' = calls s ++ [CLock] ++ cs ++ [CUnlock] /\
    cs = map (fun d => CWriteMessage d msg) (registered s) /\
    writes (calls s') = writes (calls s) ++ map (fun d => (d, msg)) (registered s) /\
    length cs = length (registered s) /\
    (forall d, count_occ USBDevice_eq_dec (map fst (writes cs)) d =
               count_occ USBDevice_eq_dec (registered s) d) /\
    (forall d, ~ In d (registered s) -> ~ In d (map fst (writes cs))) /\
    (NoDup (registered s) ->
     forall d, In d (registered s) ->
               count_occ USBDevice_eq_dec (map fst (writes cs)) d = 1) /\
    mUSBDevices s' = mUSBDevices s /\ heap s' = heap s.
Proof.
  intros Hlive.
  exists (with_calls s (calls s ++ [CLock]
                        ++ map (fun d => CWriteMessage d msg) (registered s)
                        ++ [CUnlock])).
  exists (map (fun d => CWriteMessage d msg) (registered s)).
  assert (Hw : map fst (writes (map (fun d => @CWriteMessage Message d msg)
                                    (registered s))) = registered s).
  { rewrite writes_map, map_map. cbn [fst]. apply map_id. }
  split; [apply cbMessage_eq; exact Hlive|].
  split; [reflexivity|]. split; [reflexivity|].
  split.
  { unfold with_calls. fields. unfold writes. rewrite !flat_map_app.
    fold (writes (map (fun d => @CWriteMessage Message d msg) (registered s))).
    rewrite writes_map. cbn [flat_map app]. rewrite app_nil_r. reflexivity. }
  split; [apply length_map|].
  rewrite Hw.
  split; [reflexivity|].
  split; [tauto|].
  split; [|split; reflexivity].
  intros Hnd d Hd. apply NoDup_count_occ' ; assumption.
Qed.

(** ** Basic facts on the invariants *)

Lemma wf_live (s : Server) :
  wf s -> forall d, In d (registered s) -> In d (heap s).
Proof. intros (_ & H & _). exact H. Qed.

Lemma wf_fresh (s : Server) (dev : USBDevice) :
  wf s -> self dev = brk s -> ~ In dev (heap s) /\ ~ In dev (registered s).
Proof.
  intros (_ & Hincl & Hbelow) Hself.
  assert (Hh : ~ In dev (heap s)).
  { intros Hin. rewrite Forall_forall in Hbelow. specialize (Hbelow dev Hin). lia. }
  split; [exact Hh|]. intros Hin. apply Hh, Hincl, Hin.
Qed.

Lemma wf_calls (s : Server) (cs : list (Call Message)) :
  wf s -> wf (with_calls s cs).
Proof. intros H. exact H. Qed.

Lemma wf_detach (s : Server) (l1 l2 : list USBDevice) (d : USBDevice) :
  registered s = l1 ++ d :: l2 -> wf s -> wf (detach_state s l1 d l2).
Proof.
  intros Hreg (Hnd & Hincl & Hbelow). unfold wf, detach_state, registered in *. fields.
  cbn [elems]. rewrite Hreg in *.
  split; [exact (NoDup_remove_1 _ _ _ Hnd)|]. split.
  - intros x Hx. apply in_remove_iff. split.
    + apply Hincl. apply in_app_or in Hx. apply in_or_app. cbn. tauto.
    + cbn. intros [E|[]]. subst x. exact (NoDup_remove_2 _ _ _ Hnd Hx).
  - rewrite Forall_forall in *. intros x Hx. apply Hbelow.
    apply in_remove in Hx. tauto.
Qed.

Lemma wf_attach (device : libusb_device) (s : Server) :
  wf s -> wf (attach_state drv device s).
Proof.
  intros Hwf. pose proof (attach_outcome_dev device s) as Hdev.
  pose proof Hwf as (Hnd & Hincl & Hbelow).
  unfold wf, registered.
  rewrite attach_state_vector, attach_state_heap, attach_state_brk.
  assert (Hweak : forall h : list USBDevice,
             incl h (heap s) -> Forall (fun d => self d < S (brk s)) h).
  { intros h Hh. rewrite Forall_forall in *. intros x Hx.
    specialize (Hbelow x (Hh x Hx)). lia. }
  assert (Hrem : forall dev, self dev = brk s ->
             incl (registered s) (remove USBDevice_eq_dec dev (heap s))).
  { intros dev Hself x Hx. apply in_remove_iff. split; [apply Hincl, Hx|].
    cbn. intros [E|[]]. subst x. exact (proj2 (wf_fresh s dev Hwf Hself) Hx). }
  destruct (attach_outcome drv device s) as [dev k| |dev|dev|dev];
    try (destruct (Hdev dev eq_refl) as (Hself & _)).
  - cbn [push_back elems]. split; [|split].
    + apply NoDup_app; [exact Hnd | repeat constructor; intros [] |].
      intros x Hx [E|[]]. subst x. exact (proj2 (wf_fresh s dev Hwf Hself) Hx).
    + intros x Hx. apply in_app_or in Hx. destruct Hx as [Hx|[<-|[]]].
      * right. apply Hincl, Hx.
      * left. reflexivity.
    + constructor; [lia|]. apply Hweak. apply incl_refl.
  - exact Hwf.
  - split; [exact Hnd|]. split; [apply Hrem, Hself|].
    apply Hweak. intros x Hx. apply in_remove in Hx. tauto.
  - split; [exact Hnd|]. split; [apply Hrem, Hself|].
    apply Hweak. intros x Hx. apply in_remove in Hx. tauto.
  - split; [exact Hnd|]. split; [apply Hrem, Hself|].
    apply Hweak. intros x Hx. apply in_remove in Hx. tauto.
Qed.

Lemma paired_app (a b : list (Call Message)) :
  paired a -> paired b -> paired (a ++ b).
Proof.
  intros Ha Hb. induction Ha as [|c cs Hc _ IH|d cs _ IH]; cbn [app].
  - exact Hb.
  - apply paired_plain; assumption.
  - apply paired_pair. exact IH.
Qed.

Lemma paired_plains (cs : list (Call Message)) :
  Forall (@plain Message) cs -> paired cs.
Proof.
  induction 1 as [|c cs Hc _ IH]; [apply paired_nil | apply paired_plain; assumption].
Qed.

Lemma pushes_plains (cs : list (Call Message)) :
  Forall (@plain Message) cs -> pushes cs = [].
Proof.
  induction 1 as [|c cs Hc _ IH]; [reflexivity|].
  unfold pushes in *. cbn [flat_map]. rewrite IH.
  destruct c; try reflexivity; contradiction.
Qed.

Lemma pushes_app (a b : list (Call Message)) :
  pushes (a ++ b) = pushes a ++ pushes b.
Proof. apply flat_map_app. Qed.

Lemma colors_app (a b : list (Call Message)) :
  colors (a ++ b) = colors a ++ colors b.
Proof. apply flat_map_app. Qed.

Lemma paired_colors (cs : list (Call Message)) :
  paired cs -> colors cs = pushes cs.
Proof.
  induction 1 as [|c cs Hc _ IH|d cs _ IH]; [reflexivity| |].
  - unfold colors, pushes in *. cbn [flat_map]. rewrite IH.
    destruct c; try reflexivity; contradiction.
  - unfold colors, pushes in *. cbn [flat_map app]. rewrite IH. reflexivity.
Qed.

Lemma plain_probe_calls (dev : USBDevice) :
  Forall (@plain Message) (probe_calls dev).
Proof. unfold probe_calls. destruct (cls dev); repeat constructor. Qed.

Lemma plain_matches (dev : USBDevice) (l : list nat) :
  Forall (@plain Message) (map (CMatchConfiguration dev) l).
Proof. induction l; constructor; [exact I | assumption]. Qed.

Lemma paired_attach_calls (device : libusb_device) (n : nat) (o : outcome) :
  paired (attach_calls (Message:=Message) device n o).
Proof.
  destruct o as [dev k| |dev|dev|dev]; cbn [attach_calls].
  - apply paired_app; [apply paired_plains, plain_probe_calls|].
    apply paired_app; [apply paired_plains; repeat constructor|].
    apply paired_app; [apply paired_plains, plain_matches|].
    apply paired_pair, paired_nil.
  - apply paired_plains. repeat constructor.
  - apply paired_app; apply paired_plains;
      [apply plain_probe_calls | repeat constructor].
  - apply paired_app; apply paired_plains;
      [apply plain_probe_calls | repeat constructor].
  - apply paired_app; [apply paired_plains, plain_probe_calls|].
    apply paired_app; [apply paired_plains; repeat constructor|].
    apply paired_app; apply paired_plains;
      [apply plain_matches | repeat constructor].
Qed.

Lemma inv_wf (s : Server) : inv s -> wf s.
Proof. intros H. exact (proj1 H). Qed.

Lemma inv_calls (s : Server) (cs : list (Call Message)) :
  Forall (@plain Message) cs -> inv s -> inv (with_calls s (calls s ++ cs)).
Proof.
  intros Hcs (Hwf & Hp & Hnd & Hincl & Hbelow).
  unfold inv, registered, with_calls in *. fields.
  rewrite pushes_app, (pushes_plains _ Hcs), app_nil_r.
  split; [exact Hwf|]. split; [|auto].
  apply paired_app; [exact Hp | apply paired_plains, Hcs].
Qed.

Lemma inv_detach (s : Server) (l1 l2 : list USBDevice) (d : USBDevice) :
  registered s = l1 ++ d :: l2 -> inv s -> inv (detach_state s l1 d l2).
Proof.
  intros Hreg (Hwf & Hp & Hnd & Hincl & Hbelow).
  split; [apply wf_detach; assumption|].
  unfold registered, detach_state in *. fields. cbn [elems].
  assert (Hplain : Forall (@plain Message) [CLeft d; CErase d; CDelete d])
    by (repeat constructor).
  rewrite pushes_app, (pushes_plains _ Hplain), app_nil_r.
  split; [apply paired_app; [exact Hp | apply paired_plains, Hplain]|].
  split; [exact Hnd|]. split; [|exact Hbelow].
  intros x Hx. apply Hincl. rewrite Hreg.
  apply in_app_or in Hx. apply in_or_app. cbn. tauto.
Qed.

Lemma inv_attach (device : libusb_device) (s : Server) :
  inv s -> inv (attach_state drv device s).
Proof.
  intros (Hwf & Hp & Hnd & Hincl & Hbelow).
  split; [apply wf_attach; exact Hwf|].
  pose proof (attach_outcome_dev device s) as Hdev.
  unfold registered in *.
  rewrite attach_state_calls, attach_state_vector, attach_state_brk.
  rewrite pushes_app, pushes_attach_calls.
  split; [apply paired_app; [exact Hp | apply paired_attach_calls]|].
  assert (Hweak : Forall (fun d => self d < S (brk s)) (pushes (calls s))).
  { rewrite Forall_forall in *. intros x Hx. specialize (Hbelow x Hx). lia. }
  destruct (attach_outcome drv device s) as [dev k| |dev|dev|dev];
    rewrite ?app_nil_r; auto.
  destruct (Hdev dev eq_refl) as (Hself & _).
  cbn [push_back elems]. split; [|split].
  - apply NoDup_app; [exact Hnd | repeat constructor; intros [] |].
    intros x Hx [E|[]]. subst x.
    rewrite Forall_forall in Hbelow. specialize (Hbelow dev Hx). lia.
  - intros x Hx. apply in_app_or in Hx. apply in_or_app.
    destruct Hx as [Hx|Hx]; [left; apply Hincl, Hx | right; exact Hx].
  - apply Forall_app. split; [exact Hweak|]. constructor; [lia | constructor].
Qed.

Lemma unique_handles_wf (s : Server) : unique_handles s -> wf s.
Proof. intros H. exact (proj1 H). Qed.

Lemma unique_handles_calls (s : Server) (cs : list (Call Message)) :
  Forall (@plain Message) cs -> unique_handles s ->
  unique_handles (with_calls s (calls s ++ cs)).
Proof. intros _ H. exact H. Qed.

Lemma unique_handles_detach (s : Server) (l1 l2 : list USBDevice) (d : USBDevice) :
  registered s = l1 ++ d :: l2 -> unique_handles s ->
  unique_handles (detach_state s l1 d l2).
Proof.
  intros Hreg (Hwf & Hnd). split; [apply wf_detach; assumption|].
  unfold handles, registered, detach_state in *. fields. cbn [elems].
  rewrite Hreg, map_app in Hnd. cbn [map] in Hnd. rewrite map_app.
  exact (NoDup_remove_1 _ _ _ Hnd).
Qed.

Lemma unique_handles_attach (device : libusb_device) (s : Server) :
  unique_handles s -> is_registered device s = false ->
  unique_handles (attach_state drv device s).
Proof.
  intros (Hwf & Hnd) Hg. split; [apply wf_attach; exact Hwf|].
  pose proof (attach_outcome_dev device s) as Hdev.
  unfold handles, registered in *. rewrite attach_state_vector.
  destruct (attach_outcome drv device s) as [dev k| |dev|dev|dev]; auto.
  destruct (Hdev dev eq_refl) as (_ & Hh & _).
  cbn [push_back elems]. rewrite map_app. cbn [map]. rewrite Hh.
  apply NoDup_app; [exact Hnd | repeat constructor; intros [] |].
  intros x Hx [E|[]]. subst x.
  unfold is_registered, handles, registered in Hg.
  assert (Ht : existsb (fun h => h =? device) (map mDevice (elems (mUSBDevices s))) = true).
  { apply existsb_exists. exists device. split; [exact Hx | apply Nat.eqb_refl]. }
  congruence.
Qed.

(** ** The loops of usbHotplugPoll *)

Lemma existsb_map (A B : Type) (f : A -> B) (p : B -> bool) (l : list A) :
  existsb p (map f l) = existsb (fun x => p (f x)) l.
Proof. induction l as [|x l IH]; [reflexivity|]. cbn. rewrite IH. reflexivity. Qed.

Lemma isNew_loop_eq (device : libusb_device) (post : list USBDevice) :
  forall (pre : list USBDevice) (s : Server) (acc : bool),
    registered s = pre ++ post ->
    (forall d, In d post -> In d (heap s)) ->
    for_iter (length post) (length pre)
      (fun i isNew =>
         bind (deref i) (fun dev =>
         bind (getDevice dev) (fun usbdev =>
         ret (if usbdev =? device then false else isNew)))) acc s =
    Some (acc && negb (existsb (fun d => mDevice d =? device) post), s).
Proof.
  induction post as [|x rest IH]; intros pre s acc Hreg Hlive.
  - cbn. unfold ret. rewrite andb_true_r. reflexivity.
  - cbn [length for_iter existsb].
    unfold bind at 1. unfold bind at 1. rewrite (deref_eq s pre rest x Hreg).
    unfold bind at 1. rewrite getDevice_eq by (apply Hlive; left; reflexivity).
    unfold ret at 1.
    unfold bind at 1. rewrite (vnext_eq s pre rest x Hreg).
    replace (S (length pre)) with (length (pre ++ [x])) by (rewrite length_app; cbn; lia).
    rewrite IH.
    + destruct (mDevice x =? device), acc; reflexivity.
    + rewrite <- app_assoc. exact Hreg.
    + intros d Hd. apply Hlive. right. exact Hd.
Qed.

Lemma usbHotplugPoll_isNew_eq (device : libusb_device) (s : Server) :
  (forall d, In d (registered s) -> In d (heap s)) ->
  usbHotplugPoll_isNew device s = Some (unregistered device s, s).
Proof.
  intros Hlive. unfold usbHotplugPoll_isNew. unfold bind at 1. unfold vend, vsize.
  change (elems (mUSBDevices s)) with (registered s).
  pose proof (isNew_loop_eq device (registered s) [] s true eq_refl Hlive) as H.
  cbn [length andb] in H. rewrite H.
  unfold unregistered, is_registered, handles. rewrite existsb_map. reflexivity.
Qed.

Lemma isRemoved_eq (list : list libusb_device) (usbdev : libusb_device) :
  usbHotplugPoll_isRemoved list usbdev = negb (existsb (fun h => h =? usbdev) list).
Proof.
  unfold usbHotplugPoll_isRemoved.
  assert (H : forall acc,
             fold_left (fun isRemoved item =>
                          if item =? usbdev then false else isRemoved) list acc =
             acc && negb (existsb (fun h => h =? usbdev) list)).
  { induction list as [|x l IH]; intros acc; cbn.
    - rewrite andb_true_r. reflexivity.
    - rewrite IH. destruct (x =? usbdev), acc; reflexivity. }
  apply H.
Qed.

Lemma for_iter_keeps (A : Type) (P : Server -> Prop)
      (body : nat -> A -> M Value Message A) :
  (forall i a s a' s', P s -> body i a s = Some (a', s') -> P s') ->
  forall n i a s a' s',
    P s -> for_iter n i body a s = Some (a', s') -> P s'.
Proof.
  intros Hbody. induction n as [|n IH]; intros i a s a' s' HP Hrun.
  - cbn in Hrun. unfold ret in Hrun. injection Hrun as _ <-. exact HP.
  - cbn [for_iter] in Hrun. apply bind_Some in Hrun.
    destruct Hrun as (a1 & s1 & Hb & Hrest).
    apply bind_Some in Hrest. destruct Hrest as (i' & s2 & Hn & Hrest).
    apply vnext_inv in Hn. destruct Hn as (_ & _ & ->).
    exact (IH _ _ _ _ _ (Hbody _ _ _ _ _ HP Hb) Hrest).
Qed.

(** ** Invariants along any run *)

Section Invariant.

Variable P : Server -> Prop.
Variable g : libusb_device -> Server -> bool.

Hypothesis P_wf : forall s, P s -> wf s.
Hypothesis P_calls :
  forall s cs, Forall (@plain Message) cs -> P s -> P (with_calls s (calls s ++ cs)).
Hypothesis P_detach :
  forall s l1 l2 d, registered s = l1 ++ d :: l2 -> P s -> P (detach_state s l1 d l2).
Hypothesis P_attach :
  forall device s, P s -> g device s = true -> P (attach_state drv device s).
Hypothesis g_new :
  forall device s, unregistered device s = true -> g device s = true.
Hypothesis g_calls :
  forall device s cs, g device (with_calls s cs) = g device s.

Lemma call_keeps (c : Call Message) (s s' : Server) :
  plain c -> P s -> call c s = Some (tt, s') -> P s'.
Proof.
  intros Hc HP H. rewrite call_eq in H. injection H as <-.
  apply P_calls; [repeat constructor; exact Hc | exact HP].
Qed.

Lemma usbDeviceLeft_iter_keeps (i : nat) (s s' : Server) :
  P s -> usbDeviceLeft_iter i s = Some (tt, s') -> P s'.
Proof.
  intros HP H. destruct (usbDeviceLeft_iter_inv i s s' H)
    as (l1 & d & l2 & Hreg & _ & _ & ->).
  apply P_detach; assumption.
Qed.

Lemma usbDeviceLeft_keeps (device : libusb_device) (s s' : Server) :
  P s -> usbDeviceLeft device s = Some (tt, s') -> P s'.
Proof.
  intros HP H. pose proof (wf_live s (P_wf s HP)) as Hlive.
  destruct (in_dec Nat.eq_dec device (handles s)) as [Hi|Hn].
  - destruct (split_first_handle device (registered s) Hi)
      as (l1 & d & l2 & Hreg & Hd & Hl1).
    rewrite (usbDeviceLeft_first_eq device s l1 l2 d Hreg Hd Hl1) in H.
    + injection H as <-. apply P_detach; assumption.
    + intros x Hx. apply Hlive. rewrite Hreg. apply in_or_app. left. exact Hx.
    + apply Hlive. rewrite Hreg. apply in_or_app. right. left. reflexivity.
  - rewrite (usbDeviceLeft_absent_eq device s Hn Hlive) in H.
    injection H as <-. exact HP.
Qed.

Lemma usbHotplugPoll_added_keeps (list : list libusb_device) :
  forall s s', P s -> usbHotplugPoll_added drv list s = Some (tt, s') -> P s'.
Proof.
  induction list as [|item rest IH]; intros s s' HP H.
  - cbn in H. unfold ret in H. injection H as <-. exact HP.
  - cbn [usbHotplugPoll_added] in H.
    unfold bind at 1 in H.
    rewrite (usbHotplugPoll_isNew_eq item s (wf_live s (P_wf s HP))) in H.
    destruct (unregistered item s) eqn:Hnew.
    + unfold bind at 1 in H. rewrite usbDeviceArrived_eq in H.
      apply (IH _ _ (P_attach item s HP (g_new item s Hnew)) H).
    + unfold bind at 1 in H. unfold ret at 1 in H. exact (IH _ _ HP H).
Qed.

Lemma usbHotplugPoll_removed_keeps (list : list libusb_device) (s s' : Server) :
  P s -> usbHotplugPoll_removed list s = Some (tt, s') -> P s'.
Proof.
  intros HP H. unfold usbHotplugPoll_removed in H.
  apply bind_Some in H. destruct H as (e & s1 & He & H).
  unfold vend in He. injection He as <- <-.
  refine (for_iter_keeps unit P _ _ _ _ _ _ _ _ HP H).
  intros i [] t [] t' HPt Ht.
  apply bind_Some in Ht. destruct Ht as (dev & t1 & Hd & Ht).
  unfold deref in Hd. destruct (vat (mUSBDevices t) i); [|discriminate].
  injection Hd as -> <-.
  apply bind_Some in Ht. destruct Ht as (usbdev & t1 & Hg & Ht).
  unfold getDevice in Hg. destruct (is_live dev t); [|discriminate].
  injection Hg as <- <-.
  destruct (usbHotplugPoll_isRemoved list (mDevice dev)).
  - exact (usbDeviceLeft_iter_keeps i t t' HPt Ht).
  - unfold ret in Ht. injection Ht as <-. exact HPt.
Qed.

Lemma usbHotplugPoll_keeps (r : device_list) (s s' : Server) (b : bool) :
  P s -> usbHotplugPoll drv r s = Some (b, s') -> P s'.
Proof.
  intros HP H. destruct r as [list|code]; cbn [usbHotplugPoll] in H.
  - apply bind_Some in H. destruct H as ([] & s1 & H1 & H).
    apply (call_keeps CLock _ _ I HP) in H1.
    apply bind_Some in H. destruct H as ([] & s2 & H2 & H).
    apply (usbHotplugPoll_added_keeps _ _ _ H1) in H2.
    apply bind_Some in H. destruct H as ([] & s3 & H3 & H).
    apply (usbHotplugPoll_removed_keeps _ _ _ H2) in H3.
    apply bind_Some in H. destruct H as ([] & s4 & H4 & H).
    apply (call_keeps CUnlock _ _ I H3) in H4.
    unfold ret in H. injection H as _ <-. exact H4.
  - unfold ret in H. injection H as _ <-. exact HP.
Qed.

Lemma cbHotplug_keeps (device : libusb_device) (event : Z) (s s' : Server) :
  P s -> guarded g (Hotplug device event) s = true ->
  cbHotplug drv device event s = Some (tt, s') -> P s'.
Proof.
  intros HP Hg H. unfold cbHotplug in H. cbn [guarded] in Hg.
  apply bind_Some in H. destruct H as ([] & s1 & H1 & H).
  pose proof H1 as Hs1. rewrite call_eq in Hs1. injection Hs1 as Hs1.
  apply (call_keeps CLock _ _ I HP) in H1.
  apply bind_Some in H. destruct H as ([] & s2 & H2 & H).
  assert (HP2 : P s2).
  { destruct (Z.land event LIBUSB_HOTPLUG_EVENT_DEVICE_ARRIVED =? 0)%Z.
    - unfold ret in H2. injection H2 as <-. exact H1.
    - rewrite usbDeviceArrived_eq in H2. injection H2 as <-.
      apply P_attach; [exact H1|]. rewrite <- Hs1, g_calls. exact Hg. }
  apply bind_Some in H. destruct H as ([] & s3 & H3 & H).
  assert (HP3 : P s3).
  { destruct (Z.land event LIBUSB_HOTPLUG_EVENT_DEVICE_LEFT =? 0)%Z.
    - unfold ret in H3. injection H3 as <-. exact HP2.
    - exact (usbDeviceLeft_keeps _ _ _ HP2 H3). }
  exact (call_keeps CUnlock _ _ I HP3 H).
Qed.

Lemma cbMessage_keeps (msg : Message) (s s' : Server) :
  P s -> cbMessage msg s = Some (tt, s') -> P s'.
Proof.
  intros HP H. rewrite (cbMessage_eq msg s (wf_live s (P_wf s HP))) in H.
  injection H as <-. apply P_calls; [|exact HP].
  constructor; [exact I|]. apply Forall_app. split; [|repeat constructor].
  apply Forall_forall. intros c Hc. apply in_map_iff in Hc.
  destruct Hc as (d & <- & _). exact I.
Qed.

Lemma mainLoop_flush_keeps (s s' : Server) :
  P s -> mainLoop_flush s = Some (tt, s') -> P s'.
Proof.
  intros HP H. rewrite (mainLoop_flush_eq s (wf_live s (P_wf s HP))) in H.
  injection H as <-. apply P_calls; [|exact HP].
  constructor; [exact I|]. apply Forall_app. split; [|repeat constructor].
  apply Forall_forall. intros c Hc. apply in_map_iff in Hc.
  destruct Hc as (d & <- & _). exact I.
Qed.

Lemma do_step_keeps (e : step Message) (s s' : Server) :
  P s -> guarded g e s = true -> do_step drv e s = Some (tt, s') -> P s'.
Proof.
  intros HP Hg H. destruct e as [device event|r|msg|]; cbn [do_step] in H.
  - exact (cbHotplug_keeps _ _ _ _ HP Hg H).
  - apply bind_Some in H. destruct H as (b & s1 & H1 & H).
    unfold ret in H. injection H as <-.
    exact (usbHotplugPoll_keeps _ _ _ _ HP H1).
  - exact (cbMessage_keeps _ _ _ HP H).
  - exact (mainLoop_flush_keeps _ _ HP H).
Qed.

Lemma run_keeps (es : list (step Message)) :
  forall s s',
    P s -> all_guarded drv g es s = true -> run drv es s = Some (tt, s') -> P s'.
Proof.
  induction es as [|e rest IH]; intros s s' HP Hg H.
  - cbn in H. unfold ret in H. injection H as <-. exact HP.
  - cbn [run] in H. cbn [all_guarded] in Hg.
    apply andb_prop in Hg. destruct Hg as [Hg Hrest].
    apply bind_Some in H. destruct H as ([] & s1 & H1 & H).
    rewrite H1 in Hrest.
    exact (IH _ _ (do_step_keeps _ _ _ HP Hg H1) Hrest H).
Qed.

End Invariant.

(** ** Runs from the initial state *)

Lemma wf_init (color : Value) (devices : list Value) :
  wf (FCServer_init Message color devices).
Proof.
  unfold wf, registered. cbn. split; [constructor|].
  split; [intros x []| constructor].
Qed.

Lemma inv_init (color : Value) (devices : list Value) :
  inv (FCServer_init Message color devices).
Proof.
  split; [apply wf_init|]. unfold registered. cbn.
  split; [constructor|]. split; [constructor|].
  split; [intros x [] | constructor].
Qed.

Lemma unique_handles_init (color : Value) (devices : list Value) :
  unique_handles (FCServer_init Message color devices).
Proof. split; [apply wf_init | constructor]. Qed.

Lemma all_guarded_true (es : list (step Message)) :
  forall s : Server, all_guarded drv (fun _ _ => true) es s = true.
Proof.
  induction es as [|e rest IH]; intros s; [reflexivity|].
  cbn [all_guarded]. apply andb_true_intro. split.
  - destruct e; cbn; try reflexivity.
    destruct (Z.land event LIBUSB_HOTPLUG_EVENT_DEVICE_ARRIVED =? 0)%Z; reflexivity.
  - destruct (do_step drv e s) as [[[] s1]|]; [apply IH | reflexivity].
Qed.

Lemma run_inv (es : list (step Message)) (s s' : Server) :
  inv s -> run drv es s = Some (tt, s') -> inv s'.
Proof.
  intros Hinv Hrun.
  refine (run_keeps inv (fun _ _ => true) inv_wf inv_calls _ _
            (fun _ _ _ => eq_refl) (fun _ _ _ => eq_refl) es s s' Hinv
            (all_guarded_true es s) Hrun).
  - intros t l1 l2 d. apply inv_detach.
  - intros device t Ht _. apply inv_attach. exact Ht.
Qed.

Lemma run_unique_handles (es : list (step Message)) (s s' : Server) :
  unique_handles s ->
  all_guarded drv unregistered es s = true ->
  run drv es s = Some (tt, s') ->
  unique_handles s'.
Proof.
  intros Hu Hg Hrun.
  refine (run_keeps unique_handles unregistered
            unique_handles_wf unique_handles_calls _ _ (fun _ _ H => H) _
            es s s' Hu Hg Hrun).
  - intros t l1 l2 d. apply unique_handles_detach.
  - intros device t Ht Hn. apply unique_handles_attach; [exact Ht|].
    unfold unregistered in Hn. destruct (is_registered device t); [discriminate|reflexivity].
  - reflexivity.
Qed.

(** C1, as amended.  Start from a freshly constructed server and let
    hotplug callbacks, poll steps, messages and main-loop turns follow one
    another in any order.  If every arrival callback is for a handle that
    is not registered at that time, then no two registered devices have the
    same native handle, after every step that returns. *)
Theorem no_duplicate_handles_when_arrivals_are_new
        (color : Value) (devices : list Value) (es : list (step Message))
        (s : Server) :
  all_guarded drv unregistered es (FCServer_init Message color devices) = true ->
  run drv es (FCServer_init Message color devices) = Some (tt, s) ->
  NoDup (handles s).
Proof.
  intros Hg Hrun.
  exact (proj2 (run_unique_handles es _ s (unique_handles_init color devices) Hg Hrun)).
Qed.

Lemma paired_split (cs : list (Call Message)) (d : USBDevice) :
  paired cs -> In d (pushes cs) ->
  exists a b,
    cs = a ++ CWriteColorCorrection d :: CPushBack d :: b /\ paired a /\ paired b.
Proof.
  induction 1 as [|c cs Hc Hp IH|d' cs Hp IH]; intros Hin.
  - contradiction.
  - assert (Hin' : In d (pushes cs)).
    { unfold pushes in *. cbn [flat_map] in Hin.
      destruct c; try exact Hin; contradiction. }
    destruct (IH Hin') as (a & b & -> & Ha & Hb).
    exists (c :: a), b. split; [reflexivity|]. split; [|exact Hb].
    apply paired_plain; assumption.
  - unfold pushes in Hin. cbn [flat_map app] in Hin. destruct Hin as [<-|Hin].
    + exists [], cs. split; [reflexivity|]. split; [constructor | exact Hp].
    + destruct (IH Hin) as (a & b & -> & Ha & Hb).
      exists (CWriteColorCorrection d' :: CPushBack d' :: a), b.
      split; [reflexivity|]. split; [|exact Hb]. apply paired_pair. exact Ha.
Qed.

(** C7.  After any sequence of hotplug callbacks, poll steps, messages
    and main-loop turns from a freshly constructed server: every object
    that was ever appended to mUSBDevices (so every registered one) got
    writeColorCorrection exactly once, in the call right before its
    push_back, and an object that was never appended never got it. *)
Theorem color_correction_exactly_once_before_registration
        (color : Value) (devices : list Value) (es : list (step Message))
        (s : Server) :
  run drv es (FCServer_init Message color devices) = Some (tt, s) ->
  (forall d, In d (registered s) -> In d (pushes (calls s))) /\
  (forall d, In d (pushes (calls s)) ->
     count_occ USBDevice_eq_dec (colors (calls s)) d = 1 /\
     count_occ USBDevice_eq_dec (pushes (calls s)) d = 1 /\
     exists a b,
       calls s = a ++ CWriteColorCorrection d :: CPushBack d :: b /\
       ~ In d (colors a) /\ ~ In d (pushes a) /\
       ~ In d (colors b) /\ ~ In d (pushes b)) /\
  (forall d, ~ In d (pushes (calls s)) -> ~ In d (colors (calls s))).
Proof.
  intros Hrun.
  destruct (run_inv es _ s (inv_init color devices) Hrun)
    as (_ & Hp & Hnd & Hincl & _).
  split; [exact Hincl|]. split.
  - intros d Hd.
    rewrite (paired_colors _ Hp).
    split; [apply NoDup_count_occ'; assumption|].
    split; [apply NoDup_count_occ'; assumption|].
    destruct (paired_split _ d Hp Hd) as (a & b & Hcs & Ha & Hb).
    exists a, b. split; [exact Hcs|].
    rewrite Hcs in Hnd.
    change (CWriteColorCorrection d :: CPushBack d :: b)
      with ([@CWriteColorCorrection Message d; CPushBack d] ++ b) in Hnd.
    rewrite !pushes_app in Hnd.
    change (pushes [@CWriteColorCorrection Message d; CPushBack d]) with [d] in Hnd.
    cbn [app] in Hnd.
    pose proof (NoDup_remove_2 _ _ _ Hnd) as Hnot.
    rewrite (paired_colors _ Ha), (paired_colors _ Hb).
    assert (~ In d (pushes a) /\ ~ In d (pushes b)) as [H1 H2].
    { split; intros H; apply Hnot; apply in_or_app; tauto. }
    tauto.
  - intros d Hd. rewrite (paired_colors _ Hp). exact Hd.
Qed.

(** ** The polling thread *)



(** ** One poll step, when a device is gone *)

Lemma for_iter_S (A : Type) (body : nat -> A -> M Value Message A)
      (n i : nat) (a : A) (s : Server) :
  for_iter (S n) i body a s =
  bind (body i a)
       (fun a' => bind (vnext i) (fun i' => for_iter n i' body a')) s.
Proof. reflexivity. Qed.

Lemma vat_size (v : vector) (i : nat) (x : USBDevice) :
  vat v i = Some x -> i < vsize v.
Proof.
  unfold vat, vsize. intros H. apply nth_error_Some. congruence.
Qed.

Lemma removed_skip (devs : list libusb_device) (n : nat) :
  forall (i : nat) (s : Server),
    (forall j, i <= j < i + n ->
       exists x, vat (mUSBDevices s) j = Some x /\ In x (heap s)
                 /\ In (mDevice x) devs) ->
    for_iter n i
      (fun i _ =>
         bind (deref i) (fun dev =>
         bind (getDevice dev) (fun usbdev =>
         if usbHotplugPoll_isRemoved devs usbdev
         then usbDeviceLeft_iter i else ret tt))) tt s = Some (tt, s).
Proof.
  induction n as [|n IH]; intros i s Hpos; [reflexivity|].
  rewrite for_iter_S. destruct (Hpos i ltac:(lia)) as (x & Hat & Hlive & Hin).
  unfold bind at 1. unfold bind at 1. unfold deref. rewrite Hat.
  unfold bind at 1. rewrite getDevice_eq by exact Hlive.
  rewrite isRemoved_eq.
  replace (existsb (fun h => h =? mDevice x) devs) with true.
  - cbn [negb]. unfold ret at 1. unfold bind at 1. unfold vnext.
    replace (i <? vsize (mUSBDevices s)) with true
      by (symmetry; apply Nat.ltb_lt; exact (vat_size _ _ _ Hat)).
    apply IH. intros j Hj. apply Hpos. lia.
  - symmetry. apply existsb_exists. exists (mDevice x).
    split; [exact Hin | apply Nat.eqb_refl].
Qed.

(** A loop whose body never lets the vector grow cannot walk up to an end
    that lies behind the end of the vector. *)
Lemma for_iter_runs_out (A : Type) (body : nat -> A -> M Value Message A) :
  (forall i a s a' s',
     body i a s = Some (a', s') ->
     vsize (mUSBDevices s') <= vsize (mUSBDevices s)) ->
  forall (n i : nat) (a : A) (s : Server),
    0 < n -> vsize (mUSBDevices s) < i + n -> for_iter n i body a s = None.
Proof.
  intros Hbody. induction n as [|n IH]; intros i a s Hpos Hend; [lia|].
  rewrite for_iter_S. unfold bind at 1.
  destruct (body i a s) as [[a1 s1]|] eqn:Hb; [|reflexivity].
  apply Hbody in Hb. unfold bind at 1.
  destruct (vnext i s1) as [[i' s2]|] eqn:Hn; [|reflexivity].
  apply vnext_inv in Hn. destruct Hn as (Hlt & -> & ->).
  apply IH; lia.
Qed.

(** One turn of the removal loop that returns: the device at [i] was
    enumerated and nothing happened, or it was not and the vector is one
    shorter. *)
Lemma removed_body_inv (devs : list libusb_device) (i : nat) (s s' : Server) :
  bind (deref i) (fun dev =>
  bind (getDevice dev) (fun usbdev =>
  if usbHotplugPoll_isRemoved devs usbdev
  then usbDeviceLeft_iter i else ret tt)) s = Some (tt, s') ->
  exists x,
    vat (mUSBDevices s) i = Some x /\
    ((In (mDevice x) devs /\ s' = s) \/
     (~ In (mDevice x) devs /\
      S (vsize (mUSBDevices s')) = vsize (mUSBDevices s))).
Proof.
  intros H. apply bind_Some in H. destruct H as (dev & s1 & Hd & H).
  unfold deref in Hd. destruct (vat (mUSBDevices s) i) as [x|] eqn:Hat; [|discriminate].
  injection Hd as <- <-.
  apply bind_Some in H. destruct H as (usbdev & s1 & Hg & H).
  unfold getDevice in Hg. destruct (is_live x s); [|discriminate].
  injection Hg as <- <-.
  exists x. split; [reflexivity|].
  rewrite isRemoved_eq in H.
  destruct (existsb (fun h => h =? mDevice x) devs) eqn:E; cbn [negb] in H.
  - left. unfold ret in H. injection H as <-. split; [|reflexivity].
    apply existsb_exists in E. destruct E as (h & Hh & E).
    apply Nat.eqb_eq in E. subst h. exact Hh.
  - right. split.
    + intros Hin.
      assert (Ht : existsb (fun h => h =? mDevice x) devs = true).
      { apply existsb_exists. exists (mDevice x).
        split; [exact Hin | apply Nat.eqb_refl]. }
      congruence.
    + destruct (usbDeviceLeft_iter_inv i s s' H) as (l1 & d & l2 & Hreg & _ & _ & ->).
      unfold detach_state, vsize. fields. cbn [elems].
      change (elems (mUSBDevices s)) with (registered s). rewrite Hreg.
      rewrite !length_app. cbn [length]. lia.
Qed.

Lemma removed_loop_gone (devs : list libusb_device) (post : list USBDevice) :
  forall (pre : list USBDevice) (s : Server),
    registered s = pre ++ post ->
    (exists d, In d post /\ ~ In (mDevice d) devs) ->
    for_iter (length post) (length pre)
      (fun i _ =>
         bind (deref i) (fun dev =>
         bind (getDevice dev) (fun usbdev =>
         if usbHotplugPoll_isRemoved devs usbdev
         then usbDeviceLeft_iter i else ret tt))) tt s = None.
Proof.
  induction post as [|x rest IH]; intros pre s Hreg (d & Hd & Hgone);
    [contradiction|].
  cbn [length]. rewrite for_iter_S. unfold bind at 1.
  match goal with
  | |- match ?b with _ => _ end = _ => destruct b as [[[] s1]|] eqn:Hb
  end; [|reflexivity].
  apply removed_body_inv in Hb. destruct Hb as (x' & Hat & Hcase).
  rewrite (vat_split _ _ _ _ Hreg) in Hat. injection Hat as <-.
  destruct Hcase as [[Hin ->]|[Hout Hsize]].
  - (* the device at i is enumerated: on to the next one *)
    unfold bind at 1. rewrite (vnext_eq s pre rest x Hreg).
    replace (S (length pre)) with (length (pre ++ [x]))
      by (rewrite length_app; cbn; lia).
    apply IH.
    + rewrite <- app_assoc. exact Hreg.
    + exists d. split; [|exact Hgone].
      destruct Hd as [E|Hd]; [subst d; contradiction | exact Hd].
  - (* it is not: erased at i, and the loop goes on towards the old end *)
    assert (Hlen : vsize (mUSBDevices s) = length pre + S (length rest)).
    { unfold vsize. change (elems (mUSBDevices s)) with (registered s).
      rewrite Hreg, length_app. reflexivity. }
    unfold bind at 1.
    destruct (vnext (length pre) s1) as [[i' s2]|] eqn:Hn; [|reflexivity].
    apply vnext_inv in Hn. destruct Hn as (Hlt & -> & ->).
    apply for_iter_runs_out; [|lia|lia].
    intros i [] t [] t' H. apply removed_body_inv in H.
    destruct H as (y & _ & [[_ ->]|[_ E]]); lia.
Qed.

(** The second half of a poll step has no defined result when a
    registered device is missing from the enumeration. *)
Lemma usbHotplugPoll_removed_gone (devs : list libusb_device) (s : Server)
      (d : USBDevice) :
  In d (registered s) ->
  ~ In (mDevice d) devs ->
  usbHotplugPoll_removed devs s = None.
Proof.
  intros Hd Hgone. unfold usbHotplugPoll_removed. unfold bind at 1.
  unfold vend, vsize. change (elems (mUSBDevices s)) with (registered s).
  exact (removed_loop_gone devs (registered s) [] s eq_refl
           (ex_intro _ d (conj Hd Hgone))).
Qed.

Lemma usbHotplugPoll_isNew_inv (device : libusb_device) (s s' : Server) (b : bool) :
  usbHotplugPoll_isNew device s = Some (b, s') -> s' = s.
Proof.
  unfold usbHotplugPoll_isNew. intros H.
  apply bind_Some in H. destruct H as (e & s1 & He & H).
  unfold vend in He. injection He as <- <-.
  refine (for_iter_keeps bool (fun t => t = s) _ _ _ _ _ _ _ _ eq_refl H).
  intros i a t a' t' -> Hb.
  apply bind_Some in Hb. destruct Hb as (dev & t1 & Hd & Hb).
  unfold deref in Hd. destruct (vat (mUSBDevices s) i); [|discriminate].
  injection Hd as <- <-.
  apply bind_Some in Hb. destruct Hb as (usbdev & t1 & Hg & Hb).
  unfold getDevice in Hg. destruct (is_live u s); [|discriminate].
  injection Hg as <- <-.
  unfold ret in Hb. injection Hb as _ <-. reflexivity.
Qed.

(** The first half of a poll step takes nothing out of the registry. *)
Lemma usbHotplugPoll_added_incl (devs : list libusb_device) :
  forall (s s' : Server) (d : USBDevice),
    usbHotplugPoll_added drv devs s = Some (tt, s') ->
    In d (registered s) -> In d (registered s').
Proof.
  induction devs as [|x rest IH]; intros s s' d H Hd.
  - cbn in H. unfold ret in H. injection H as <-. exact Hd.
  - cbn [usbHotplugPoll_added] in H.
    apply bind_Some in H. destruct H as (b & s1 & Hnew & H).
    apply usbHotplugPoll_isNew_inv in Hnew. subst s1.
    apply bind_Some in H. destruct H as ([] & s2 & Harr & H).
    apply (IH _ _ _ H). destruct b.
    + rewrite usbDeviceArrived_eq in Harr. injection Harr as <-.
      unfold registered. rewrite attach_state_vector.
      destruct (attach_outcome drv x s); try exact Hd.
      cbn [push_back elems]. apply in_or_app. left. exact Hd.
    + unfold ret in Harr. injection Harr as <-. exact Hd.
Qed.

(** A poll step has no defined result when a registered device is
    missing from the enumeration. *)
Lemma usbHotplugPoll_gone (devs : list libusb_device) (s : Server)
      (d : USBDevice) :
  In d (registered s) ->
  ~ In (mDevice d) devs ->
  usbHotplugPoll drv (Devices devs) s = None.
Proof.
  intros Hd Hgone. cbn [usbHotplugPoll]. mstep call_eq.
  unfold bind at 1.
  destruct (usbHotplugPoll_added drv devs (with_calls s (calls s ++ [CLock])))
    as [[[] s2]|] eqn:Hadd; [|reflexivity].
  unfold bind at 1.
  rewrite (usbHotplugPoll_removed_gone devs s2 d); [reflexivity| |exact Hgone].
  apply (usbHotplugPoll_added_incl _ _ _ _ Hadd). exact Hd.
Qed.

Lemma unregistered_true (device : libusb_device) (s : Server) :
  unregistered device s = true <-> ~ In device (handles s).
Proof.
  unfold unregistered, is_registered. rewrite negb_true_iff. split.
  - intros H Hin.
    assert (Ht : existsb (fun h => h =? device) (handles s) = true).
    { apply existsb_exists. exists device. split; [exact Hin | apply Nat.eqb_refl]. }
    congruence.
  - intros H. apply existsb_all_false. intros h Hh. apply Nat.eqb_neq.
    intros ->. contradiction.
Qed.

Lemma usbHotplugPoll_added_none (devs : list libusb_device) (s : Server) :
  (forall d, In d (registered s) -> In d (heap s)) ->
  (forall x, In x devs -> In x (handles s)) ->
  usbHotplugPoll_added drv devs s = Some (tt, s).
Proof.
  intros Hlive. induction devs as [|x rest IH]; intros Hall; [reflexivity|].
  cbn [usbHotplugPoll_added]. unfold bind at 1.
  rewrite (usbHotplugPoll_isNew_eq x s Hlive).
  replace (unregistered x s) with false.
  - unfold bind at 1. unfold ret at 1. apply IH.
    intros y Hy. apply Hall. right. exact Hy.
  - symmetry. apply not_true_is_false. rewrite unregistered_true.
    intros H. apply H. apply Hall. left. reflexivity.
Qed.

Lemma usbHotplugPoll_added_one (h : libusb_device) (dev : USBDevice) (k : nat)
      (devs : list libusb_device) :
  forall s : Server,
    wf s ->
    ~ In h (handles s) ->
    In h devs ->
    (forall x, In x devs -> x = h \/ In x (handles s)) ->
    attach_outcome drv h s = Attached dev k ->
    usbHotplugPoll_added drv devs s = Some (tt, attach_state drv h s).
Proof.
  induction devs as [|x rest IH]; intros s Hwf Hnew Hin Hall Ho; [contradiction|].
  cbn [usbHotplugPoll_added]. unfold bind at 1.
  rewrite (usbHotplugPoll_isNew_eq x s (wf_live s Hwf)).
  destruct (Nat.eq_dec x h) as [->|Hne].
  - replace (unregistered h s) with true
      by (symmetry; apply unregistered_true; exact Hnew).
    unfold bind at 1. rewrite usbDeviceArrived_eq.
    apply usbHotplugPoll_added_none.
    + apply wf_live, wf_attach, Hwf.
    + assert (Hh : handles (attach_state drv h s) = handles s ++ [h]).
      { unfold handles, registered. rewrite attach_state_vector, Ho.
        cbn [push_back elems]. rewrite map_app. cbn [map].
        destruct (attach_outcome_dev h s dev) as (_ & -> & _); [rewrite Ho|]; reflexivity. }
      intros y Hy. rewrite Hh. apply in_or_app.
      destruct (Hall y (or_intror Hy)) as [->|Hy']; [right; left; reflexivity | left; exact Hy'].
  - replace (unregistered x s) with false.
    + unfold bind at 1. unfold ret at 1. apply IH; try assumption.
      * destruct Hin as [E|Hin]; [contradiction | exact Hin].
      * intros y Hy. apply Hall. right. exact Hy.
    + symmetry. apply not_true_is_false. rewrite unregistered_true.
      intros H. apply H. destruct (Hall x (or_introl eq_refl)); [contradiction | assumption].
Qed.

Lemma about_app (h : libusb_device) (a b : list (Call Message)) :
  about h (a ++ b) = about h a ++ about h b.
Proof. apply filter_app. Qed.

Lemma about_other (h h' : libusb_device) (cs : list (Call Message)) :
  h' <> h ->
  Forall (fun c => call_handle c = Some h' \/ call_handle c = None) cs ->
  about h cs = [].
Proof.
  intros Hne H. induction H as [|c cs Hc _ IH]; [reflexivity|].
  unfold about in *. cbn [filter]. rewrite IH.
  destruct Hc as [-> | ->]; [|reflexivity].
  replace (h' =? h) with false by (symmetry; apply Nat.eqb_neq; exact Hne).
  reflexivity.
Qed.

Lemma handle_attached_calls (dev : USBDevice) (k n : nat) :
  Forall (fun c : Call Message =>
            call_handle c = Some (mDevice dev) \/ call_handle c = None)
         (attach_calls (mDevice dev) n (Attached dev k)).
Proof.
  assert (Hlist : forall l : list (Call Message),
            (forall c, In c l -> call_handle c = Some (mDevice dev)) ->
            Forall (fun c => call_handle c = Some (mDevice dev)
                             \/ call_handle c = None) l).
  { intros l Hl. apply Forall_forall. intros c Hc. left. apply Hl, Hc. }
  cbn [attach_calls]. repeat (apply Forall_app; split); apply Hlist;
    intros c Hc;
    try (apply in_map_iff in Hc; destruct Hc as (i & <- & _); reflexivity);
    try unfold probe_calls in Hc; try destruct (cls dev);
    cbn in Hc; intuition (subst; reflexivity).
Qed.

(** C4.  The server holds devices with the handles 1, 2 and 3 (in any
    order) and the enumeration returns 2, 3 and 4 (in any order); handle 4
    is a device the server accepts.  The first half of the poll step does
    what is expected of it: it enters usbDeviceArrived once, for handle 4,
    constructs the new object and appends it behind the registered ones,
    and none of its calls is about handle 2 or handle 3.  The second half
    has to detach the device with handle 1, which is now followed by at
    least one more entry: its loop calls usbDeviceLeft(i), which erases at
    i, and then goes on with i and with the end it read before the
    erase.  That has no defined result, so the poll step has none: it does
    not return with the registered handles 2, 3 and 4. *)
Theorem usbHotplugPoll_1_gone_4_new_undefined
        (s : Server) (devs : list libusb_device) (c : DriverClass) :
  wf s ->
  Permutation (handles s) [1; 2; 3] ->
  Permutation devs [2; 3; 4] ->
  probed drv 4 = Some c ->
  let dev := mkUSBDevice (brk s) c 4 in
  (0 <= open drv dev)%Z ->
  probeAfterOpening drv dev = true ->
  existsb (matchConfiguration drv dev) (mDevices s) = true ->
  exists s2 cs d1,
    usbHotplugPoll_added drv devs (with_calls s (calls s ++ [CLock]))
    = Some (tt, s2) /\
    calls s2 = calls s ++ [CLock] ++ cs /\
    arrivals cs = [4] /\
    news cs = [dev] /\
    departures cs = [] /\
    about 2 cs = [] /\
    about 3 cs = [] /\
    registered s2 = registered s ++ [dev] /\
    In d1 (registered s2) /\ mDevice d1 = 1 /\
    usbHotplugPoll_removed devs s2 = None /\
    usbHotplugPoll drv (Devices devs) s = None.
Proof.
  intros Hwf Hperm Hdevs Hprobe dev Hopen Hpao Hmatch.
  set (s1 := with_calls s (calls s ++ [CLock])).
  assert (Hwf1 : wf s1) by exact Hwf.
  (* the attach attempt on handle 4 succeeds *)
  destruct (first_match drv dev (mDevices s)) as [k|] eqn:Hfm.
  2:{ apply first_match_None in Hfm. congruence. }
  assert (Ho : attach_outcome drv 4 s1 = Attached dev k).
  { unfold attach_outcome. rewrite Hprobe. cbv zeta. unfold s1. fields. fold dev.
    replace (open drv dev <? 0)%Z with false by (symmetry; apply Z.ltb_ge; exact Hopen).
    rewrite Hpao. cbn [negb]. rewrite Hfm. reflexivity. }
  (* the registered device with handle 1 *)
  assert (H1in : In 1 (handles s)).
  { apply (Permutation_in 1 (Permutation_sym Hperm)). left. reflexivity. }
  destruct (split_first_handle 1 (registered s) H1in)
    as (l1 & d1 & l2 & Hreg & Hd1 & _).
  assert (Hin_devs : forall x, In x devs <-> x = 2 \/ x = 3 \/ x = 4).
  { intros x. split.
    - intros Hx. apply (Permutation_in x Hdevs) in Hx. cbn in Hx. intuition.
    - intros Hx. apply (Permutation_in x (Permutation_sym Hdevs)). cbn. intuition. }
  assert (Hin_handles : forall x, In x (handles s) <-> x = 1 \/ x = 2 \/ x = 3).
  { intros x. split.
    - intros Hx. apply (Permutation_in x Hperm) in Hx. cbn in Hx. intuition.
    - intros Hx. apply (Permutation_in x (Permutation_sym Hperm)). cbn. intuition. }
  (* first half of the poll step *)
  assert (Hadded : usbHotplugPoll_added drv devs s1 = Some (tt, attach_state drv 4 s1)).
  { apply (usbHotplugPoll_added_one 4 dev k); try assumption.
    - change (handles s1) with (handles s). rewrite Hin_handles. lia.
    - apply Hin_devs. auto.
    - intros x Hx. change (handles s1) with (handles s). rewrite Hin_handles.
      apply Hin_devs in Hx. lia. }
  set (s2 := attach_state drv 4 s1) in *.
  assert (Hreg2 : registered s2 = registered s ++ [dev]).
  { unfold s2, registered. rewrite attach_state_vector, Ho. reflexivity. }
  assert (Hd1in : In d1 (registered s2)).
  { rewrite Hreg2, Hreg. apply in_or_app. left. apply in_or_app.
    right. left. reflexivity. }
  assert (Hgone : ~ In (mDevice d1) devs) by (rewrite Hd1, Hin_devs; lia).
  exists s2, (attach_calls 4 (length (mDevices s)) (Attached dev k)), d1.
  split; [exact Hadded|].
  split.
  { unfold s2. rewrite attach_state_calls, Ho. unfold s1. fields.
    rewrite <- !app_assoc. reflexivity. }
  split.
  { rewrite <- Ho. change (mDevices s) with (mDevices s1).
    apply arrivals_attach_calls. }
  split; [apply news_attach_calls|].
  split; [apply departures_attach_calls|].
  split.
  { exact (about_other 2 4 _ ltac:(lia) (handle_attached_calls dev k _)). }
  split.
  { exact (about_other 3 4 _ ltac:(lia) (handle_attached_calls dev k _)). }
  split; [exact Hreg2|]. split; [exact Hd1in|]. split; [exact Hd1|].
  split.
  - exact (usbHotplugPoll_removed_gone devs s2 d1 Hd1in Hgone).
  - apply (usbHotplugPoll_gone devs s d1); [|exact Hgone].
    rewrite Hreg. apply in_or_app. right. left. reflexivity.
Qed.

(** * Further properties of the registry *)

(** ** mainLoop *)

(** X1.  One turn of mainLoop, once the transport's events are handled: under
    the lock, flush() is called once on each registered device, in
    registration order, and nothing else happens to the server. *)
Theorem mainLoop_flushes_each_registered_once (s : Server) :
  (forall d, In d (registered s) -> In d (heap s)) ->
  exists s',
    mainLoop_flush s = Some (tt, s') /\
    calls s' = calls s ++ [CLock] ++ map (@CFlush Message) (registered s)
               ++ [CUnlock] /\
    mUSBDevices s' = mUSBDevices s /\
    heap s' = heap s /\
    brk s' = brk s.
Proof.
  intros Hlive. eexists. split; [apply mainLoop_flush_eq; exact Hlive|].
  repeat split.
Qed.

(** ** Event mode never leaves defined behaviour *)

Lemma usbDeviceLeft_returns (device : libusb_device) (s : Server) :
  wf s -> exists s', usbDeviceLeft device s = Some (tt, s') /\ wf s'.
Proof.
  intros Hwf. pose proof (wf_live s Hwf) as Hlive.
  destruct (in_dec Nat.eq_dec device (handles s)) as [Hi|Hn].
  - destruct (split_first_handle device (registered s) Hi)
      as (l1 & d & l2 & Hreg & Hd & Hl1).
    exists (detach_state s l1 d l2). split; [|apply wf_detach; assumption].
    apply usbDeviceLeft_first_eq; try assumption.
    + intros x Hx. apply Hlive. rewrite Hreg. apply in_or_app. left. exact Hx.
    + apply Hlive. rewrite Hreg. apply in_or_app. right. left. reflexivity.
  - exists s. split; [apply usbDeviceLeft_absent_eq; assumption | exact Hwf].
Qed.

Lemma cbHotplug_returns (device : libusb_device) (event : Z) (s : Server) :
  wf s -> exists s', cbHotplug drv device event s = Some (tt, s') /\ wf s'.
Proof.
  intros Hwf. unfold cbHotplug. mstep call_eq.
  set (s1 := with_calls s (calls s ++ [CLock])).
  assert (Hwf1 : wf s1) by exact Hwf.
  assert (H2 : exists s2,
             (if (Z.land event LIBUSB_HOTPLUG_EVENT_DEVICE_ARRIVED =? 0)%Z
              then ret tt else usbDeviceArrived drv device) s1 = Some (tt, s2)
             /\ wf s2).
  { destruct (Z.land event LIBUSB_HOTPLUG_EVENT_DEVICE_ARRIVED =? 0)%Z.
    - exists s1. split; [reflexivity | exact Hwf1].
    - exists (attach_state drv device s1).
      split; [apply usbDeviceArrived_eq | apply wf_attach; exact Hwf1]. }
  destruct H2 as (s2 & H2 & Hwf2). unfold bind at 1. rewrite H2.
  assert (H3 : exists s3,
             (if (Z.land event LIBUSB_HOTPLUG_EVENT_DEVICE_LEFT =? 0)%Z
              then ret tt else usbDeviceLeft device) s2 = Some (tt, s3)
             /\ wf s3).
  { destruct (Z.land event LIBUSB_HOTPLUG_EVENT_DEVICE_LEFT =? 0)%Z.
    - exists s2. split; [reflexivity | exact Hwf2].
    - apply usbDeviceLeft_returns. exact Hwf2. }
  destruct H3 as (s3 & H3 & Hwf3). unfold bind at 1. rewrite H3.
  rewrite call_eq. eexists. split; [reflexivity | exact Hwf3].
Qed.

Lemma event_step_returns (e : step Message) (s : Server) :
  event_step e -> wf s -> exists s', do_step drv e s = Some (tt, s') /\ wf s'.
Proof.
  intros He Hwf. destruct e as [device event|r|msg|]; cbn [do_step].
  - apply cbHotplug_returns. exact Hwf.
  - contradiction.
  - rewrite (cbMessage_eq msg s (wf_live s Hwf)). eexists.
    split; [reflexivity | exact Hwf].
  - rewrite (mainLoop_flush_eq s (wf_live s Hwf)). eexists.
    split; [reflexivity | exact Hwf].
Qed.

(** X2.  Whatever hotplug callbacks, messages and main-loop turns follow one
    another on a freshly constructed server, every one of them returns: no
    step calls a method on a deleted object, deletes an object twice or
    erases behind the end of mUSBDevices; and afterwards the registered
    objects are distinct and live. *)
Theorem event_mode_never_undefined
        (color : Value) (devices : list Value) (es : list (step Message)) :
  Forall (@event_step Message) es ->
  exists s,
    run drv es (FCServer_init Message color devices) = Some (tt, s) /\
    NoDup (registered s) /\
    (forall d, In d (registered s) -> In d (heap s)).
Proof.
  intros Hes.
  assert (H : forall s0 : Server, wf s0 ->
            exists s, run drv es s0 = Some (tt, s) /\ wf s).
  { induction Hes as [|e rest He _ IH]; intros s0 Hwf.
    - exists s0. split; [reflexivity | exact Hwf].
    - destruct (event_step_returns e s0 He Hwf) as (s1 & H1 & Hwf1).
      destruct (IH s1 Hwf1) as (s2 & H2 & Hwf2).
      exists s2. split; [|exact Hwf2].
      cbn [run]. unfold bind. rewrite H1. exact H2. }
  destruct (H _ (wf_init color devices)) as (s & Hrun & Hnd & Hincl & _).
  exists s. auto.
Qed.

(** ** Nothing leaks *)

Lemma tidy_wf (s : Server) : tidy s -> wf s.
Proof. intros H. exact (proj1 H). Qed.

Lemma tidy_calls (s : Server) (cs : list (Call Message)) :
  Forall (@plain Message) cs -> tidy s -> tidy (with_calls s (calls s ++ cs)).
Proof. intros _ H. exact H. Qed.

Lemma tidy_detach (s : Server) (l1 l2 : list USBDevice) (d : USBDevice) :
  registered s = l1 ++ d :: l2 -> tidy s -> tidy (detach_state s l1 d l2).
Proof.
  intros Hreg (Hwf & Hincl). split; [apply wf_detach; assumption|].
  unfold registered, detach_state in *. fields. cbn [elems].
  intros x Hx. apply in_remove_iff in Hx. destruct Hx as [Hx Hne].
  apply Hincl in Hx. rewrite Hreg in Hx.
  apply in_app_or in Hx. apply in_or_app. cbn in *. intuition congruence.
Qed.

Lemma tidy_attach (device : libusb_device) (s : Server) :
  tidy s -> tidy (attach_state drv device s).
Proof.
  intros (Hwf & Hincl). split; [apply wf_attach; exact Hwf|].
  unfold registered in *. rewrite attach_state_vector, attach_state_heap.
  destruct (attach_outcome drv device s) as [dev k| |dev|dev|dev];
    try exact Hincl;
    try (intros x Hx; apply in_remove in Hx; apply Hincl; tauto).
  cbn [push_back elems]. intros x [<-|Hx]; apply in_or_app.
  - right. left. reflexivity.
  - left. apply Hincl, Hx.
Qed.

(** X3.  After any sequence of hotplug callbacks, poll steps, messages and
    main-loop turns that returned, the live device objects are exactly the
    registered ones: every instance that was constructed and is not in
    mUSBDevices has been deleted, and no registered instance has. *)
Theorem live_objects_are_the_registered_ones
        (color : Value) (devices : list Value) (es : list (step Message))
        (s : Server) :
  run drv es (FCServer_init Message color devices) = Some (tt, s) ->
  forall d, In d (heap s) <-> In d (registered s).
Proof.
  intros Hrun.
  assert (Ht : tidy s).
  { refine (run_keeps tidy (fun _ _ => true) tidy_wf tidy_calls _ _
              (fun _ _ _ => eq_refl) (fun _ _ _ => eq_refl) es _ s _
              (all_guarded_true es _) Hrun).
    - intros t l1 l2 d. apply tidy_detach.
    - intros device t Ht _. apply tidy_attach. exact Ht.
    - split; [apply wf_init | intros x []]. }
  destruct Ht as ((_ & Hlive & _) & Hincl).
  intros d. split; [apply Hincl | apply Hlive].
Qed.

(** ** Attach attempts keep no memory *)

Lemma attach_state_registered (device : libusb_device) (s : Server) :
  registered (attach_state drv device s) =
  match probed drv device with
  | None => registered s
  | Some c =>
      let dev := mkUSBDevice (brk s) c device in
      if (0 <=? open drv dev)%Z && probeAfterOpening drv dev
         && existsb (matchConfiguration drv dev) (mDevices s)
      then registered s ++ [dev]
      else registered s
  end.
Proof.
  unfold registered. rewrite attach_state_vector. unfold attach_outcome.
  destruct (probed drv device) as [c|]; [|reflexivity].
  cbv zeta. set (dev := mkUSBDevice (brk s) c device).
  rewrite Z.ltb_antisym.
  destruct (0 <=? open drv dev)%Z; cbn [negb andb]; [|reflexivity].
  destruct (probeAfterOpening drv dev); cbn [negb andb]; [|reflexivity].
  destruct (first_match drv dev (mDevices s)) as [k|] eqn:E.
  - rewrite (first_match_Some _ _ _ E). reflexivity.
  - apply first_match_None in E. rewrite E. reflexivity.
Qed.

Lemma attach_state_brk_probed (device : libusb_device) (s : Server) (c : DriverClass) :
  probed drv device = Some c -> brk (attach_state drv device s) = S (brk s).
Proof.
  intros Hp. rewrite attach_state_brk. unfold attach_outcome. rewrite Hp. cbv zeta.
  destruct (open drv _ <? 0)%Z; [reflexivity|].
  destruct (negb _); [reflexivity|].
  destruct (first_match drv _ _); reflexivity.
Qed.

(** X4.  A rejected device is not remembered.  When the attempt on a handle is
    rejected (open() fails, say) the registry is as before, and the next
    arrival of the same handle goes through the whole sequence again on a
    new instance: if that one is accepted, it is registered. *)
Theorem rejected_device_is_retried_on_next_arrival
        (device : libusb_device) (s : Server) (c : DriverClass) :
  probed drv device = Some c ->
  let dev1 := mkUSBDevice (brk s) c device in
  let dev2 := mkUSBDevice (S (brk s)) c device in
  (0 <=? open drv dev1)%Z && probeAfterOpening drv dev1
    && existsb (matchConfiguration drv dev1) (mDevices s) = false ->
  (0 <=? open drv dev2)%Z && probeAfterOpening drv dev2
    && existsb (matchConfiguration drv dev2) (mDevices s) = true ->
  exists s1 s2,
    usbDeviceArrived drv device s = Some (tt, s1) /\
    registered s1 = registered s /\
    usbDeviceArrived drv device s1 = Some (tt, s2) /\
    registered s2 = registered s ++ [dev2].
Proof.
  intros Hp dev1 dev2 H1 H2.
  exists (attach_state drv device s).
  exists (attach_state drv device (attach_state drv device s)).
  assert (Hr1 : registered (attach_state drv device s) = registered s).
  { rewrite attach_state_registered, Hp. cbv zeta. fold dev1. rewrite H1. reflexivity. }
  split; [apply usbDeviceArrived_eq|]. split; [exact Hr1|].
  split; [apply usbDeviceArrived_eq|].
  rewrite attach_state_registered, Hp. cbv zeta.
  rewrite (attach_state_brk_probed device s c Hp).
  rewrite (proj1 (attach_state_config device s)).
  fold dev2. rewrite H2, Hr1. reflexivity.
Qed.

(** ** Arrival and departure in one callback *)

Lemma heap_without_fresh (s : Server) (dev : USBDevice) :
  wf s -> self dev = brk s ->
  forall d, In d (remove USBDevice_eq_dec dev (heap s)) <-> In d (heap s).
Proof.
  intros Hwf Hself d. rewrite in_remove_iff. cbn.
  pose proof (proj1 (wf_fresh s dev Hwf Hself)) as Hfresh.
  split; [tauto|]. intros Hd. split; [exact Hd|].
  intros [E|[]]. subst d. contradiction.
Qed.

(** X5.  A hotplug callback whose event has both bits set, for a handle that is
    not registered, attaches and detaches in one go: whatever the drivers
    answer, the registered devices and the live objects are afterwards
    what they were before. *)
Theorem cbHotplug_arrived_and_left_restores_registry
        (device : libusb_device) (event : Z) (s : Server) :
  wf s ->
  ~ In device (handles s) ->
  Z.land event LIBUSB_HOTPLUG_EVENT_DEVICE_ARRIVED <> 0%Z ->
  Z.land event LIBUSB_HOTPLUG_EVENT_DEVICE_LEFT <> 0%Z ->
  exists s',
    cbHotplug drv device event s = Some (tt, s') /\
    registered s' = registered s /\
    (forall d, In d (heap s') <-> In d (heap s)).
Proof.
  intros Hwf Hnew Ha Hl. unfold cbHotplug. mstep call_eq.
  set (s1 := with_calls s (calls s ++ [CLock])).
  assert (Hwf1 : wf s1) by exact Hwf.
  apply Z.eqb_neq in Ha. apply Z.eqb_neq in Hl. rewrite Ha, Hl.
  unfold bind at 1. rewrite usbDeviceArrived_eq.
  set (s2 := attach_state drv device s1).
  assert (Hwf2 : wf s2) by (apply wf_attach; exact Hwf1).
  pose proof (attach_outcome_dev device s1) as Hdev.
  pose proof (attach_state_vector device s1) as Hvec.
  pose proof (attach_state_heap device s1) as Hheap.
  fold s2 in Hvec, Hheap.
  destruct (attach_outcome drv device s1) as [dev k| |dev|dev|dev] eqn:Ho.
  - destruct (Hdev dev eq_refl) as (Hself & Hh & _).
    assert (Hreg2 : registered s2 = registered s ++ dev :: []).
    { unfold registered. rewrite Hvec. reflexivity. }
    unfold bind at 1.
    rewrite (usbDeviceLeft_first_eq device s2 (registered s) [] dev Hreg2 Hh Hnew).
    + rewrite call_eq. eexists. split; [reflexivity|].
      unfold detach_state, registered, with_calls. fields. cbn [elems].
      split; [apply app_nil_r|]. intros d. rewrite Hheap, remove_head.
      apply (heap_without_fresh s1 dev Hwf1 Hself).
    + intros x Hx. rewrite Hheap. right. apply (wf_live s Hwf). exact Hx.
    + rewrite Hheap. left. reflexivity.
  - unfold bind at 1. rewrite usbDeviceLeft_absent_eq.
    + rewrite call_eq. eexists. split; [reflexivity|].
      unfold registered, with_calls. fields. rewrite Hvec, Hheap.
      split; [reflexivity | tauto].
    + unfold handles, registered. rewrite Hvec. exact Hnew.
    + apply wf_live. exact Hwf2.
  - destruct (Hdev dev eq_refl) as (Hself & _).
    unfold bind at 1. rewrite usbDeviceLeft_absent_eq.
    + rewrite call_eq. eexists. split; [reflexivity|].
      unfold registered, with_calls. fields. rewrite Hvec, Hheap.
      split; [reflexivity | apply (heap_without_fresh s1 dev Hwf1 Hself)].
    + unfold handles, registered. rewrite Hvec. exact Hnew.
    + apply wf_live. exact Hwf2.
  - destruct (Hdev dev eq_refl) as (Hself & _).
    unfold bind at 1. rewrite usbDeviceLeft_absent_eq.
    + rewrite call_eq. eexists. split; [reflexivity|].
      unfold registered, with_calls. fields. rewrite Hvec, Hheap.
      split; [reflexivity | apply (heap_without_fresh s1 dev Hwf1 Hself)].
    + unfold handles, registered. rewrite Hvec. exact Hnew.
    + apply wf_live. exact Hwf2.
  - destruct (Hdev dev eq_refl) as (Hself & _).
    unfold bind at 1. rewrite usbDeviceLeft_absent_eq.
    + rewrite call_eq. eexists. split; [reflexivity|].
      unfold registered, with_calls. fields. rewrite Hvec, Hheap.
      split; [reflexivity | apply (heap_without_fresh s1 dev Hwf1 Hself)].
    + unfold handles, registered. rewrite Hvec. exact Hnew.
    + apply wf_live. exact Hwf2.
Qed.

(** ** Departure when handles are unique *)

Lemma usbDeviceLeft_unique (device : libusb_device) (s : Server) :
  wf s ->
  NoDup (handles s) ->
  exists s',
    usbDeviceLeft device s = Some (tt, s') /\
    wf s' /\
    ~ In device (handles s') /\
    (forall h, h <> device -> (In h (handles s') <-> In h (handles s))) /\
    NoDup (handles s').
Proof.
  intros Hwf Hnd. pose proof (wf_live s Hwf) as Hlive.
  destruct (in_dec Nat.eq_dec device (handles s)) as [Hi|Hn].
  - destruct (split_first_handle device (registered s) Hi)
      as (l1 & d & l2 & Hreg & Hd & Hl1).
    exists (detach_state s l1 d l2). split.
    { apply usbDeviceLeft_first_eq; try assumption.
      - intros x Hx. apply Hlive. rewrite Hreg. apply in_or_app. left. exact Hx.
      - apply Hlive. rewrite Hreg. apply in_or_app. right. left. reflexivity. }
    split; [apply wf_detach; assumption|].
    unfold handles, registered, detach_state in *. fields. cbn [elems].
    rewrite Hreg, map_app in Hnd, Hi. cbn [map] in Hnd, Hi. rewrite Hd in Hnd.
    rewrite map_app. split; [exact (NoDup_remove_2 _ _ _ Hnd)|].
    split; [|exact (NoDup_remove_1 _ _ _ Hnd)].
    intros h Hne. rewrite Hreg, map_app. cbn [map]. rewrite Hd.
    split; intros Hh; apply in_app_or in Hh; apply in_or_app; cbn in *;
      intuition congruence.
  - exists s. split; [apply usbDeviceLeft_absent_eq; assumption|].
    split; [exact Hwf|]. split; [exact Hn|]. split; [tauto | exact Hnd].
Qed.

(** X6.  When no two registered devices share a handle, usbDeviceLeft takes the
    handle out of the registry altogether and leaves every other handle
    registered; handles stay unique. *)
Theorem usbDeviceLeft_unregisters_unique_handle
        (device : libusb_device) (s : Server) :
  wf s ->
  NoDup (handles s) ->
  exists s',
    usbDeviceLeft device s = Some (tt, s') /\
    ~ In device (handles s') /\
    (forall h, h <> device -> (In h (handles s') <-> In h (handles s))) /\
    NoDup (handles s').
Proof.
  intros Hwf Hnd.
  destruct (usbDeviceLeft_unique device s Hwf Hnd) as (s' & H1 & _ & H2).
  exists s'. split; assumption.
Qed.

(** ** Poll steps in general *)

Lemma handles_attach_state (device : libusb_device) (s : Server) :
  exists added,
    registered (attach_state drv device s) = registered s ++ added /\
    (added = [] \/ exists dev, added = [dev] /\ mDevice dev = device).
Proof.
  pose proof (attach_outcome_dev device s) as Hdev.
  unfold registered. rewrite attach_state_vector.
  destruct (attach_outcome drv device s) as [dev k| |dev|dev|dev];
    try (exists []; rewrite app_nil_r; split; [reflexivity | left; reflexivity]).
  exists [dev]. split; [reflexivity|]. right. exists dev.
  split; [reflexivity | exact (proj1 (proj2 (Hdev dev eq_refl)))].
Qed.

Lemma usbHotplugPoll_added_spec (devs : list libusb_device) :
  forall s : Server,
    wf s ->
    exists s' added,
      usbHotplugPoll_added drv devs s = Some (tt, s') /\
      wf s' /\
      registered s' = registered s ++ added /\
      (forall d, In d added ->
                 In (mDevice d) devs /\ ~ In (mDevice d) (handles s)) /\
      NoDup (map mDevice added).
Proof.
  induction devs as [|x rest IH]; intros s Hwf.
  - exists s, []. split; [reflexivity|]. split; [exact Hwf|].
    split; [symmetry; apply app_nil_r|]. split; [intros d [] | constructor].
  - cbn [usbHotplugPoll_added]. unfold bind at 1.
    rewrite (usbHotplugPoll_isNew_eq x s (wf_live s Hwf)).
    destruct (unregistered x s) eqn:Hnew.
    + unfold bind at 1. rewrite usbDeviceArrived_eq.
      apply unregistered_true in Hnew.
      destruct (handles_attach_state x s) as (a1 & Hreg1 & Ha1).
      destruct (IH (attach_state drv x s) (wf_attach x s Hwf))
        as (s' & a2 & Hrun & Hwf' & Hreg' & Ha2 & Hnd2).
      exists s', (a1 ++ a2). split; [exact Hrun|]. split; [exact Hwf'|].
      split; [rewrite Hreg', Hreg1, app_assoc; reflexivity|].
      assert (Hh1 : handles (attach_state drv x s) = handles s ++ map mDevice a1).
      { unfold handles. rewrite Hreg1, map_app. reflexivity. }
      split.
      * intros d Hd. apply in_app_or in Hd. destruct Hd as [Hd|Hd].
        -- destruct Ha1 as [->|(dev & -> & Hx)]; [contradiction|].
           destruct Hd as [<-|[]]. rewrite Hx. split; [left; reflexivity | exact Hnew].
        -- destruct (Ha2 d Hd) as [Hin Hnot]. split; [right; exact Hin|].
           intros Hh. apply Hnot. rewrite Hh1. apply in_or_app. left. exact Hh.
      * rewrite map_app. apply NoDup_app; [|exact Hnd2|].
        -- destruct Ha1 as [->|(dev & -> & _)]; repeat constructor. intros [].
        -- intros h Hh1' Hh2. apply in_map_iff in Hh2. destruct Hh2 as (d & <- & Hd).
           apply (proj2 (Ha2 d Hd)). rewrite Hh1. apply in_or_app. right. exact Hh1'.
    + unfold bind at 1. unfold ret at 1.
      destruct (IH s Hwf) as (s' & a & Hrun & Hwf' & Hreg' & Ha & Hnd).
      exists s', a. split; [exact Hrun|]. split; [exact Hwf'|].
      split; [exact Hreg'|]. split; [|exact Hnd].
      intros d Hd. split; [right; exact (proj1 (Ha d Hd)) | exact (proj2 (Ha d Hd))].
Qed.

Lemma usbHotplugPoll_removed_none (devs : list libusb_device) (s : Server) :
  (forall d, In d (registered s) -> In d (heap s)) ->
  (forall d, In d (registered s) -> In (mDevice d) devs) ->
  usbHotplugPoll_removed devs s = Some (tt, s).
Proof.
  intros Hlive Hpresent. unfold usbHotplugPoll_removed. unfold bind at 1.
  unfold vend, vsize. apply removed_skip. intros j Hj.
  unfold vat.
  destruct (nth_error (elems (mUSBDevices s)) j) as [x|] eqn:Hx.
  - exists x. apply nth_error_In in Hx. auto.
  - apply nth_error_None in Hx. lia.
Qed.

Lemma usbHotplugPoll_appends (devs : list libusb_device) (s : Server) :
  wf s ->
  (forall d, In d (registered s) -> In (mDevice d) devs) ->
  exists s' added,
    usbHotplugPoll drv (Devices devs) s = Some (true, s') /\
    registered s' = registered s ++ added /\
    (forall d, In d added ->
               In (mDevice d) devs /\ ~ In (mDevice d) (handles s)) /\
    NoDup (map mDevice added) /\
    wf s'.
Proof.
  intros Hwf Hpresent. cbn [usbHotplugPoll]. mstep call_eq.
  set (s1 := with_calls s (calls s ++ [CLock])).
  destruct (usbHotplugPoll_added_spec devs s1 Hwf)
    as (s2 & added & Hadd & Hwf2 & Hreg2 & Hadded & Hnd).
  unfold bind at 1. rewrite Hadd.
  unfold bind at 1. rewrite (usbHotplugPoll_removed_none devs s2).
  - unfold bind at 1. rewrite call_eq. unfold ret.
    exists (with_calls s2 (calls s2 ++ [CUnlock])), added.
    split; [reflexivity|]. split; [exact Hreg2|]. split; [exact Hadded|].
    split; [exact Hnd | exact Hwf2].
  - apply wf_live. exact Hwf2.
  - intros d Hd. rewrite Hreg2 in Hd. apply in_app_or in Hd.
    destruct Hd as [Hd|Hd]; [apply Hpresent, Hd | apply (Hadded d Hd)].
Qed.

(** X7.  A poll step that finds every registered device still enumerated
    returns true and only appends: the devices registered before keep
    their places, each device it adds has an enumerated handle that was not
    registered, and no handle is added twice, however often the
    enumeration lists it. *)
Theorem usbHotplugPoll_without_departure_only_appends
        (devs : list libusb_device) (s : Server) :
  wf s ->
  (forall d, In d (registered s) -> In (mDevice d) devs) ->
  exists s' added,
    usbHotplugPoll drv (Devices devs) s = Some (true, s') /\
    registered s' = registered s ++ added /\
    (forall d, In d added ->
               In (mDevice d) devs /\ ~ In (mDevice d) (handles s)) /\
    NoDup (map mDevice added) /\
    wf s'.
Proof. apply usbHotplugPoll_appends. Qed.

(** X8.  A poll step on an unchanged bus (every enumerated handle registered,
    every registered handle enumerated) takes the lock, releases it and
    does nothing else. *)
Theorem usbHotplugPoll_unchanged_bus_is_noop
        (devs : list libusb_device) (s : Server) :
  (forall d, In d (registered s) -> In d (heap s)) ->
  (forall x, In x devs -> In x (handles s)) ->
  (forall d, In d (registered s) -> In (mDevice d) devs) ->
  usbHotplugPoll drv (Devices devs) s =
  Some (true, with_calls s (calls s ++ [CLock; CUnlock])).
Proof.
  intros Hlive Hknown Hpresent. cbn [usbHotplugPoll]. mstep call_eq.
  unfold bind at 1. rewrite usbHotplugPoll_added_none by assumption.
  unfold bind at 1. rewrite usbHotplugPoll_removed_none by assumption.
  unfold bind at 1. rewrite call_eq. unfold ret, with_calls. fields.
  rewrite <- app_assoc. reflexivity.
Qed.

(** ** Poll steps with a departure *)

(** X9.  A poll step that finds a registered device gone, with further
    entries behind it in mUSBDevices, has no defined result: usbDeviceLeft(i)
    erases the entry, and the removal loop walks on with i towards the end
    it read before the erase, which now lies behind the end of the
    vector. *)
Theorem usbHotplugPoll_departure_before_end_undefined
        (devs : list libusb_device) (s : Server)
        (l1 l2 : list USBDevice) (d : USBDevice) :
  registered s = l1 ++ d :: l2 ->
  l2 <> [] ->
  ~ In (mDevice d) devs ->
  usbHotplugPoll drv (Devices devs) s = None.
Proof.
  intros Hreg _ Hgone. apply (usbHotplugPoll_gone devs s d); [|exact Hgone].
  rewrite Hreg. apply in_or_app. right. left. reflexivity.
Qed.

(** X10.  A poll step that finds the last registered device gone has no
    defined result either: when nothing was appended behind it,
    usbDeviceLeft(i) erases at the last position and the removal loop
    increments i, which is then the end of the vector (an iterator that the
    erase invalidated). *)
Theorem usbHotplugPoll_last_departure_undefined
        (devs : list libusb_device) (s : Server)
        (l1 : list USBDevice) (d : USBDevice) :
  registered s = l1 ++ [d] ->
  ~ In (mDevice d) devs ->
  usbHotplugPoll drv (Devices devs) s = None.
Proof.
  intros Hreg Hgone. apply (usbHotplugPoll_gone devs s d); [|exact Hgone].
  rewrite Hreg. apply in_or_app. right. left. reflexivity.
Qed.

(** X11.  When the last two registered devices are both gone, the second half
    of the poll step erases the first of them and then, walking on to the
    end it read before, dereferences at the end of the shortened
    mUSBDevices: the step has no defined result. *)
Theorem usbHotplugPoll_last_two_departed_undefined
        (devs : list libusb_device) (s : Server)
        (l1 : list USBDevice) (d1 d2 : USBDevice) :
  wf s ->
  registered s = l1 ++ [d1; d2] ->
  ~ In (mDevice d1) devs ->
  ~ In (mDevice d2) devs ->
  (forall x, In x l1 -> In (mDevice x) devs) ->
  (forall x, In x devs -> In x (handles s)) ->
  usbHotplugPoll drv (Devices devs) s = None.
Proof.
  intros _ Hreg Hgone1 _ _ _.
  apply (usbHotplugPoll_gone devs s d1); [|exact Hgone1].
  rewrite Hreg. apply in_or_app. right. left. reflexivity.
Qed.

(** ** The polling thread on a growing bus *)

(** X12.  As long as no handle disappears from one enumeration to the next, and
    none of the registered ones is missing from the first, the polling
    thread keeps polling: every poll step returns, the loop is never left,
    and the devices registered at the start keep their places. *)
Theorem usbHotplugThreadFunc_keeps_polling_while_bus_grows
        (enumerations : list (list libusb_device)) :
  forall (prev : list libusb_device) (s : Server),
    wf s ->
    (forall d, In d (registered s) -> In (mDevice d) prev) ->
    grows prev enumerations ->
    exists s' added,
      usbHotplugThreadFunc drv (map Devices enumerations) s = Some (Polling s') /\
      registered s' = registered s ++ added /\
      wf s'.
Proof.
  induction enumerations as [|e rest IH]; intros prev s Hwf Hprev Hgrow.
  - exists s, []. split; [reflexivity|]. split; [symmetry; apply app_nil_r | exact Hwf].
  - destruct Hgrow as [Hincl Hrest].
    destruct (usbHotplugPoll_appends e s Hwf)
      as (s1 & a1 & Hpoll & Hreg1 & Ha1 & _ & Hwf1).
    { intros d Hd. apply Hincl, Hprev, Hd. }
    destruct (IH e (with_calls s1 (calls s1 ++ [CSleep])) Hwf1)
      as (s2 & a2 & Hrun & Hreg2 & Hwf2).
    { intros d Hd. change (In d (registered s1)) in Hd. rewrite Hreg1 in Hd.
      apply in_app_or in Hd. destruct Hd as [Hd|Hd].
      - apply Hincl, Hprev, Hd.
      - exact (proj1 (Ha1 d Hd)). }
    { exact Hrest. }
    exists s2, (a1 ++ a2). split.
    + cbn [map usbHotplugThreadFunc]. rewrite Hpoll, call_eq. exact Hrun.
    + split; [|exact Hwf2]. rewrite Hreg2.
      change (registered (with_calls s1 (calls s1 ++ [CSleep]))) with (registered s1).
      rewrite Hreg1, app_assoc. reflexivity.
Qed.

(** ** Messages after a departure and after an arrival *)

(** X13.  Once usbDeviceLeft has returned for a handle (handles being unique),
    the next broadcast writes to no device with that handle. *)
Theorem departed_device_gets_no_later_message
        (device : libusb_device) (msg : Message) (s : Server) :
  wf s ->
  NoDup (handles s) ->
  exists s1 s2 cs,
    usbDeviceLeft device s = Some (tt, s1) /\
    cbMessage msg s1 = Some (tt, s2) /\
    calls s2 = calls s1 ++ cs /\
    (forall d m, In (d, m) (writes cs) -> mDevice d <> device).
Proof.
  intros Hwf Hnd.
  destruct (usbDeviceLeft_unique device s Hwf Hnd) as (s1 & H1 & Hwf1 & Hout & _).
  exists s1. eexists. eexists.
  split; [exact H1|].
  split; [apply cbMessage_eq, wf_live, Hwf1|].
  split; [reflexivity|].
  intros d m Hin Hd. apply Hout.
  unfold writes in Hin. rewrite !flat_map_app in Hin. cbn [flat_map app] in Hin.
  rewrite app_nil_r in Hin.
  fold (writes (map (fun d => @CWriteMessage Message d msg) (registered s1))) in Hin.
  rewrite writes_map in Hin. apply in_map_iff in Hin.
  destruct Hin as (x & [= <- _] & Hx).
  rewrite <- Hd. unfold handles. apply in_map. exact Hx.
Qed.

(** X14.  A device that usbDeviceArrived has accepted is written to by the
    next broadcast, after all the devices registered before it. *)
Theorem attached_device_gets_next_message_last
        (device : libusb_device) (msg : Message) (s : Server) (c : DriverClass) :
  wf s ->
  probed drv device = Some c ->
  let dev := mkUSBDevice (brk s) c device in
  (0 <=? open drv dev)%Z && probeAfterOpening drv dev
    && existsb (matchConfiguration drv dev) (mDevices s) = true ->
  exists s1 s2,
    usbDeviceArrived drv device s = Some (tt, s1) /\
    cbMessage msg s1 = Some (tt, s2) /\
    calls s2 = calls s1 ++ [CLock]
               ++ map (fun d => CWriteMessage d msg) (registered s ++ [dev])
               ++ [CUnlock].
Proof.
  intros Hwf Hp dev Hacc.
  exists (attach_state drv device s). eexists.
  split; [apply usbDeviceArrived_eq|].
  split; [apply cbMessage_eq, wf_live, wf_attach, Hwf|].
  unfold with_calls. fields.
  rewrite attach_state_registered, Hp. cbv zeta. fold dev. rewrite Hacc.
  reflexivity.
Qed.

End Properties.

(** * Properties of the constructor *)

Module ConfigFacts.
Import String.
Import Config.

Section Constructor.

Variables Value Addr : Type.
Variable json : rapidjson Value.
Variable newAddr : option string -> N -> option Addr.

Lemma append_empty (a b : string) :
  (a ++ b)%string = EmptyString <-> a = EmptyString /\ b = EmptyString.
Proof.
  destruct a; cbn; split.
  - intros ->. auto.
  - intros [_ ->]. reflexivity.
  - discriminate.
  - intros [H _]. discriminate.
Qed.

Lemma parse_listen_pair (config : string -> Value) (error : string) :
  pair_listen json config = true ->
  parse_listen json newAddr (config "listen"%string) error =
  let error1 :=
    if IsString json (host_of json config) then error
    else if negb (IsNull json (host_of json config))
         then (error ++ bad_hostname)%string
         else error in
  if IsUint json (port_of json config)
  then
    match newAddr (hostStr_of json config) (GetUint json (port_of json config)) with
    | Some addr => Some (Some addr, error1)
    | None =>
        match hostStr_of json config with
        | Some h => Some (None, (error1 ++ unresolved h)%string)
        | None => None
        end
    end
  else Some (None, (error1 ++ bad_port)%string).
Proof.
  unfold pair_listen, parse_listen, hostStr_of, host_of, port_of. intros H.
  apply andb_prop in H. destruct H as [-> ->]. reflexivity.
Qed.

Lemma parse_listen_other (config : string -> Value) (error : string) :
  pair_listen json config = false ->
  parse_listen json newAddr (config "listen"%string) error =
  Some (None, (error ++ bad_listen)%string).
Proof.
  unfold pair_listen, parse_listen. intros H.
  destruct (IsArray json (config "listen"%string)); [|reflexivity].
  cbn [andb] in H. rewrite H. reflexivity.
Qed.

(** X15.  The constructor ends with an empty mError exactly for a well-formed
    document whose listen address resolves: 'listen' a list of two with a
    string or null host and an unsigned port, 'devices' an array. *)
Theorem no_error_iff_well_formed_and_resolved (config : string -> Value) :
  (exists c, FCServer_new json newAddr config = Some c
             /\ mError c = EmptyString) <->
  (well_formed json config = true /\
   exists addr,
     newAddr (hostStr_of json config) (GetUint json (port_of json config))
     = Some addr).
Proof.
  unfold FCServer_new, well_formed.
  destruct (pair_listen json config) eqn:Hpair.
  - rewrite (parse_listen_pair config EmptyString Hpair). cbv zeta.
    unfold hostStr_of.
    destruct (IsString json (host_of json config)) eqn:Hs;
      destruct (IsNull json (host_of json config)) eqn:Hn;
      destruct (IsUint json (port_of json config)) eqn:Hu;
      destruct (IsArray json (config "devices"%string)) eqn:Hd;
      cbn [negb andb orb];
      destruct (newAddr _ _) as [addr|] eqn:Ha;
      (split;
       [ intros (c & Hc & He);
         first [ discriminate Hc
               | injection Hc as <-; cbn in He;
                 first [ discriminate He
                       | split; [reflexivity | eexists; reflexivity] ] ]
       | intros (Hw & a & Hr);
         first [ discriminate Hw
               | discriminate Hr
               | eexists; split; reflexivity ] ]).
  - rewrite (parse_listen_other config EmptyString Hpair). cbn [andb].
    split.
    + intros (c & Hc & He). injection Hc as <-. cbn [mError] in He.
      destruct (IsArray json (config "devices"%string)); discriminate He.
    + intros (Hw & _). discriminate Hw.
Qed.

(** X16.  Complaints accumulate: a host of the wrong type, a port that is no
    unsigned number and a 'devices' member that is no array are all three
    reported, in this order, and no address is resolved. *)
Theorem complaints_accumulate (config : string -> Value) :
  pair_listen json config = true ->
  IsString json (host_of json config) = false ->
  IsNull json (host_of json config) = false ->
  IsUint json (port_of json config) = false ->
  IsArray json (config "devices"%string) = false ->
  exists c,
    FCServer_new json newAddr config = Some c /\
    mError c = (bad_hostname ++ bad_port ++ bad_devices)%string /\
    mListenAddr c = None.
Proof.
  intros Hpair Hs Hn Hu Hd. unfold FCServer_new.
  rewrite (parse_listen_pair config EmptyString Hpair). cbv zeta.
  rewrite Hs, Hn, Hu, Hd. cbn [negb]. eexists. split; [reflexivity|].
  split; reflexivity.
Qed.

(** X17.  A host that is neither a string nor null is complained about, but the
    constructor still resolves the port, with a null host (any address):
    mListenAddr is set although mError is not empty. *)
Theorem bad_host_still_resolves_wildcard (config : string -> Value) (addr : Addr) :
  pair_listen json config = true ->
  IsString json (host_of json config) = false ->
  IsNull json (host_of json config) = false ->
  IsUint json (port_of json config) = true ->
  newAddr None (GetUint json (port_of json config)) = Some addr ->
  exists c,
    FCServer_new json newAddr config = Some c /\
    mListenAddr c = Some addr /\
    mError c = (bad_hostname ++
                if IsArray json (config "devices"%string)
                then EmptyString else bad_devices)%string.
Proof.
  intros Hpair Hs Hn Hu Ha. unfold FCServer_new.
  rewrite (parse_listen_pair config EmptyString Hpair). cbv zeta.
  unfold hostStr_of. rewrite Hs, Hn, Hu, Ha. cbn [negb].
  eexists. split; [reflexivity|]. split; [reflexivity|]. cbn [mError].
  destruct (IsArray json (config "devices"%string)); reflexivity.
Qed.

(** X18.  The constructor has no defined result exactly when it goes on to
    report a failed resolution without a host string: 'listen' is a list
    of two, the host is no string, the port is an unsigned number and
    newAddr fails for the null host. *)
Theorem undefined_iff_null_host_unresolved (config : string -> Value) :
  FCServer_new json newAddr config = None <->
  (pair_listen json config = true /\
   IsString json (host_of json config) = false /\
   IsUint json (port_of json config) = true /\
   newAddr None (GetUint json (port_of json config)) = None).
Proof.
  unfold FCServer_new.
  destruct (pair_listen json config) eqn:Hpair.
  - rewrite (parse_listen_pair config EmptyString Hpair). cbv zeta.
    unfold hostStr_of.
    destruct (IsString json (host_of json config)) eqn:Hs;
      destruct (IsUint json (port_of json config)) eqn:Hu;
      try (destruct (newAddr _ _) as [addr|] eqn:Ha);
      split; try discriminate; try tauto;
      try (intros (_ & H1 & H2 & H3); congruence).
  - rewrite (parse_listen_other config EmptyString Hpair).
    split; [discriminate | intros (H & _); discriminate H].
Qed.

End Constructor.

End ConfigFacts.

(** * The claims at concrete servers *)

(** The claim C1 as it stands fails: libusb delivering the arrival of
    handle 1 twice leaves two registered devices with handle 1, because
    usbDeviceArrived does not look the handle up in mUSBDevices. *)
Lemma duplicate_arrival_registers_handle_twice :
  ~ (forall (es : list (step nat)) (s : FCServer nat nat),
       run accept_all es boot = Some (tt, s) -> NoDup (handles s)).
Proof.
  intros H.
  assert (Hrun : run accept_all [arrival_of 1; arrival_of 1] boot
                 = Some (tt, server11)) by (vm_compute; reflexivity).
  apply H in Hrun.
  vm_compute in Hrun.
  inversion Hrun as [|x l Hnot Hnd]. apply Hnot. left. reflexivity.
Qed.

Lemma no_duplicate_handles_witness :
  NoDup (handles (after [arrival_of 1; arrival_of 2;
                         Hotplug 1 LIBUSB_HOTPLUG_EVENT_DEVICE_LEFT;
                         Poll (Devices [2; 3; 1]); OpcMessage 7; MainLoop])).
Proof.
  apply (no_duplicate_handles_when_arrivals_are_new nat nat accept_all 0 [10; 11]
           [arrival_of 1; arrival_of 2;
            Hotplug 1 LIBUSB_HOTPLUG_EVENT_DEVICE_LEFT;
            Poll (Devices [2; 3; 1]); OpcMessage 7; MainLoop]).
  - vm_compute. reflexivity.
  - vm_compute. reflexivity.
Defined.

Lemma usbDeviceArrived_first_match_witness :
  (exists s' cs,
     usbDeviceArrived accept_all 7 boot = Some (tt, s') /\
     calls s' = calls boot ++ cs /\
     consulted (mkUSBDevice 0 FCDevice 7) cs = [0] /\
     assignment accept_all [10; 11] (mkUSBDevice 0 FCDevice 7) cs = Some 0) /\
  (exists s' cs,
     usbDeviceArrived accept_all 7 boot_swapped = Some (tt, s') /\
     calls s' = calls boot_swapped ++ cs /\
     consulted (mkUSBDevice 0 FCDevice 7) cs = [0] /\
     assignment accept_all [11; 10] (mkUSBDevice 0 FCDevice 7) cs = Some 0).
Proof.
  split.
  - destruct (usbDeviceArrived_first_match nat nat accept_all 7 boot FCDevice 0 10)
      as (s' & cs & H1 & H2 & _ & H4 & _ & H6);
      [vm_compute; reflexivity | vm_compute; discriminate
      | vm_compute; reflexivity | vm_compute; reflexivity
      | vm_compute; reflexivity | intros j w Hj; lia |].
    exists s', cs. repeat split; assumption.
  - destruct (usbDeviceArrived_first_match nat nat accept_all 7 boot_swapped
                FCDevice 0 11)
      as (s' & cs & H1 & H2 & _ & H4 & _ & H6);
      [vm_compute; reflexivity | vm_compute; discriminate
      | vm_compute; reflexivity | vm_compute; reflexivity
      | vm_compute; reflexivity | intros j w Hj; lia |].
    exists s', cs. repeat split; assumption.
Defined.

Lemma usbHotplugPoll_1_gone_4_new_undefined_witness :
  registered server123 ++ [mkUSBDevice 3 FCDevice 4]
  = [mkUSBDevice 0 FCDevice 1; mkUSBDevice 1 FCDevice 2;
     mkUSBDevice 2 FCDevice 3; mkUSBDevice 3 FCDevice 4] /\
  usbHotplugPoll accept_all (Devices [2; 3; 4]) server123 = None.
Proof.
  destruct (usbHotplugPoll_1_gone_4_new_undefined nat nat accept_all server123
              [2; 3; 4] FCDevice)
    as (s2 & cs & d1 & _ & _ & _ & _ & _ & _ & _ & _ & _ & _ & _ & H).
  - vm_compute. split; [|split].
    + repeat constructor; cbn; intuition discriminate.
    + intros x Hx. cbn in *. tauto.
    + repeat constructor.
  - vm_compute. apply Permutation_refl.
  - apply Permutation_refl.
  - vm_compute. reflexivity.
  - vm_compute. discriminate.
  - vm_compute. reflexivity.
  - vm_compute. reflexivity.
  - split; [vm_compute; reflexivity | exact H].
Defined.

Lemma usbDeviceArrived_rejection_atomic_witness :
  exists s' cs,
    usbDeviceArrived open_fails 1 server123 = Some (tt, s') /\
    calls s' = calls server123 ++ cs /\
    mUSBDevices s' = mUSBDevices server123 /\
    deletes cs = news cs.
Proof.
  destruct (usbDeviceArrived_rejection_atomic nat nat open_fails 1 server123)
    as (s' & cs & H1 & H2 & H3 & _ & H5 & _).
  - right. exists FCDevice. split; [vm_compute; reflexivity|]. left.
    vm_compute. reflexivity.
  - exists s', cs. repeat split; assumption.
Defined.

Lemma cbMessage_writes_each_registered_once_witness :
  exists s' cs,
    cbMessage 42 server123 = Some (tt, s') /\
    calls s' = calls server123 ++ [CLock] ++ cs ++ [CUnlock] /\
    length cs = 3.
Proof.
  destruct (cbMessage_writes_each_registered_once nat nat 42 server123)
    as (s' & cs & H1 & H2 & _ & _ & H5 & _).
  - intros d. vm_compute. tauto.
  - exists s', cs. repeat split; assumption.
Defined.

Lemma color_correction_exactly_once_witness :
  In (mkUSBDevice 1 FCDevice 2) (registered server123) /\
  count_occ USBDevice_eq_dec (colors (calls server123))
            (mkUSBDevice 1 FCDevice 2) = 1.
Proof.
  assert (Hd : In (mkUSBDevice 1 FCDevice 2) (registered server123))
    by (vm_compute; tauto).
  split; [exact Hd|].
  destruct (color_correction_exactly_once_before_registration nat nat accept_all
              0 [10; 11] [arrival_of 1; arrival_of 2; arrival_of 3] server123)
    as (Hreg & Hall & _).
  - vm_compute. reflexivity.
  - exact (proj1 (Hall _ (Hreg _ Hd))).
Defined.

Lemma usbDeviceLeft_removes_or_noop_witness :
  (exists s', usbDeviceLeft 2 server123 = Some (tt, s') /\ handles s' = [1; 3]) /\
  usbDeviceLeft 9 server123 = Some (tt, server123).
Proof.
  split.
  - destruct (usbDeviceLeft_removes_or_noop nat nat 2 server123)
      as (s' & H1 & _ & _).
    + intros d. vm_compute. tauto.
    + exists s'. split; [exact H1|].
      vm_compute in H1. injection H1 as <-. reflexivity.
  - destruct (usbDeviceLeft_removes_or_noop nat nat 9 server123)
      as (s' & H1 & _ & H3).
    + intros d. vm_compute. tauto.
    + rewrite H1. rewrite H3; [reflexivity|].
      vm_compute. intros [E|[E|[E|[]]]]; discriminate E.
Defined.


Lemma usbDeviceLeft_removes_first_only_witness :
  exists s',
    usbDeviceLeft 1 server11 = Some (tt, s') /\
    registered s' = [mkUSBDevice 1 FCDevice 1] /\
    handles s' = [1].
Proof.
  destruct (usbDeviceLeft_removes_first_only nat nat 1 server11
              [] [mkUSBDevice 1 FCDevice 1] (mkUSBDevice 0 FCDevice 1))
    as (s' & H1 & H2 & _).
  - vm_compute. reflexivity.
  - reflexivity.
  - cbn. tauto.
  - intros x. vm_compute. tauto.
  - exists s'. split; [exact H1|]. split; [exact H2|].
    unfold handles. rewrite H2. reflexivity.
Defined.

(** A remark on the second half of usbHotplugPoll.  Its loop keeps
    walking with the iterator it handed to erase and up to the end it read
    before the first erase (usbHotplugPoll_removed_gone); the loop of
    usbDeviceLeft on a native handle leaves right after the erase.  So the
    same departures that a poll step has no defined result for are
    handled by hotplug callbacks. *)
Example usbHotplugPoll_first_gone_undefined :
  usbHotplugPoll accept_all (Devices [2; 3]) server123 = None.
Proof. vm_compute. reflexivity. Qed.

Example cbHotplug_first_gone_defined :
  option_map (fun r => handles (snd r))
             (cbHotplug accept_all 1 LIBUSB_HOTPLUG_EVENT_DEVICE_LEFT server123)
  = Some [2; 3].
Proof. vm_compute. reflexivity. Qed.

(** * The further properties at concrete servers *)

Lemma mainLoop_flushes_each_registered_once_witness :
  exists s',
    mainLoop_flush server123 = Some (tt, s') /\
    calls s' = calls server123 ++ [CLock]
               ++ map (@CFlush nat) (registered server123) ++ [CUnlock].
Proof.
  destruct (mainLoop_flushes_each_registered_once nat nat server123)
    as (s' & H1 & H2 & _).
  - intros d. vm_compute. tauto.
  - exists s'. split; assumption.
Defined.

Lemma event_mode_never_undefined_witness :
  exists s,
    run accept_all
        [arrival_of 1; arrival_of 1; OpcMessage 3;
         Hotplug 1 LIBUSB_HOTPLUG_EVENT_DEVICE_LEFT; MainLoop;
         Hotplug 1 LIBUSB_HOTPLUG_EVENT_DEVICE_LEFT;
         Hotplug 1 LIBUSB_HOTPLUG_EVENT_DEVICE_LEFT]
        boot = Some (tt, s).
Proof.
  destruct (event_mode_never_undefined nat nat accept_all 0 [10; 11]
              [arrival_of 1; arrival_of 1; OpcMessage 3;
               Hotplug 1 LIBUSB_HOTPLUG_EVENT_DEVICE_LEFT; MainLoop;
               Hotplug 1 LIBUSB_HOTPLUG_EVENT_DEVICE_LEFT;
               Hotplug 1 LIBUSB_HOTPLUG_EVENT_DEVICE_LEFT])
    as (s & H & _).
  - repeat constructor.
  - exists s. exact H.
Defined.

Lemma live_objects_are_the_registered_ones_witness :
  In (mkUSBDevice 0 FCDevice 1) (heap server11) <->
  In (mkUSBDevice 0 FCDevice 1) (registered server11).
Proof.
  apply (live_objects_are_the_registered_ones nat nat accept_all 0 [10; 11]
           [arrival_of 1; arrival_of 1]).
  vm_compute. reflexivity.
Defined.

Lemma rejected_device_is_retried_witness :
  exists s1 s2,
    usbDeviceArrived open_fails_once 5 boot = Some (tt, s1) /\
    registered s1 = [] /\
    usbDeviceArrived open_fails_once 5 s1 = Some (tt, s2) /\
    registered s2 = [mkUSBDevice 1 FCDevice 5].
Proof.
  destruct (rejected_device_is_retried_on_next_arrival nat nat open_fails_once
              5 boot FCDevice)
    as (s1 & s2 & H1 & H2 & H3 & H4).
  - vm_compute. reflexivity.
  - vm_compute. reflexivity.
  - vm_compute. reflexivity.
  - exists s1, s2. repeat split; assumption.
Defined.

Lemma cbHotplug_arrived_and_left_witness :
  exists s',
    cbHotplug accept_all 4 3 server123 = Some (tt, s') /\
    registered s' = registered server123.
Proof.
  destruct (cbHotplug_arrived_and_left_restores_registry nat nat accept_all
              4 3 server123)
    as (s' & H1 & H2 & _).
  - vm_compute. split; [|split].
    + repeat constructor; cbn; intuition discriminate.
    + intros x Hx. cbn in *. tauto.
    + repeat constructor.
  - vm_compute. intros [E|[E|[E|[]]]]; discriminate E.
  - vm_compute. discriminate.
  - vm_compute. discriminate.
  - exists s'. split; assumption.
Defined.

Lemma usbDeviceLeft_unregisters_unique_handle_witness :
  exists s',
    usbDeviceLeft 2 server123 = Some (tt, s') /\ ~ In 2 (handles s').
Proof.
  destruct (usbDeviceLeft_unregisters_unique_handle nat nat 2 server123)
    as (s' & H1 & H2 & _).
  - vm_compute. split; [|split].
    + repeat constructor; cbn; intuition discriminate.
    + intros x Hx. cbn in *. tauto.
    + repeat constructor.
  - vm_compute. repeat constructor; cbn; intuition discriminate.
  - exists s'. split; assumption.
Defined.

Lemma usbHotplugPoll_without_departure_witness :
  exists s' added,
    usbHotplugPoll accept_all (Devices [4; 1; 2; 4; 3]) server123 = Some (true, s') /\
    registered s' = registered server123 ++ added /\
    NoDup (map mDevice added).
Proof.
  destruct (usbHotplugPoll_without_departure_only_appends nat nat accept_all
              [4; 1; 2; 4; 3] server123)
    as (s' & added & H1 & H2 & _ & H4 & _).
  - vm_compute. split; [|split].
    + repeat constructor; cbn; intuition discriminate.
    + intros x Hx. cbn in *. tauto.
    + repeat constructor.
  - intros d. vm_compute. intros [<-|[<-|[<-|[]]]]; cbn; tauto.
  - exists s', added. repeat split; assumption.
Defined.

Lemma usbHotplugPoll_unchanged_bus_witness :
  usbHotplugPoll accept_all (Devices [3; 1; 2]) server123 =
  Some (true, with_calls server123 (calls server123 ++ [CLock; CUnlock])).
Proof.
  apply (usbHotplugPoll_unchanged_bus_is_noop nat nat accept_all [3; 1; 2] server123).
  - intros d. vm_compute. tauto.
  - intros x. vm_compute. tauto.
  - intros d. vm_compute. intros [<-|[<-|[<-|[]]]]; cbn; tauto.
Defined.

Lemma usbHotplugPoll_departure_before_end_witness :
  usbHotplugPoll accept_all (Devices [5; 3; 1]) server123 = None.
Proof.
  apply (usbHotplugPoll_departure_before_end_undefined nat nat accept_all
           [5; 3; 1] server123
           [mkUSBDevice 0 FCDevice 1] [mkUSBDevice 2 FCDevice 3]
           (mkUSBDevice 1 FCDevice 2)).
  - vm_compute. reflexivity.
  - discriminate.
  - cbn. intros [E|[E|[E|[]]]]; discriminate E.
Defined.

Lemma usbHotplugPoll_last_departure_witness :
  usbHotplugPoll accept_all (Devices [1; 2]) server123 = None.
Proof.
  apply (usbHotplugPoll_last_departure_undefined nat nat accept_all
           [1; 2] server123
           [mkUSBDevice 0 FCDevice 1; mkUSBDevice 1 FCDevice 2]
           (mkUSBDevice 2 FCDevice 3)).
  - vm_compute. reflexivity.
  - cbn. intros [E|[E|[]]]; discriminate E.
Defined.

Lemma usbHotplugPoll_last_two_departed_witness :
  usbHotplugPoll accept_all (Devices [1]) server123 = None.
Proof.
  apply (usbHotplugPoll_last_two_departed_undefined nat nat accept_all [1]
           server123 [mkUSBDevice 0 FCDevice 1]
           (mkUSBDevice 1 FCDevice 2) (mkUSBDevice 2 FCDevice 3)).
  - vm_compute. split; [|split].
    + repeat constructor; cbn; intuition discriminate.
    + intros x Hx. cbn in *. tauto.
    + repeat constructor.
  - vm_compute. reflexivity.
  - cbn. intros [E|[]]. discriminate E.
  - cbn. intros [E|[]]. discriminate E.
  - intros x. cbn. intros [<-|[]]. cbn. tauto.
  - intros x. vm_compute. intros [<-|[]]. tauto.
Defined.

Lemma no_error_iff_well_formed_witness :
  exists c,
    Config.FCServer_new Config.J_json Config.resolver Config.doc_good = Some c /\
    Config.mError c = String.EmptyString.
Proof.
  apply (proj2 (ConfigFacts.no_error_iff_well_formed_and_resolved
                  Config.J _ Config.J_json Config.resolver Config.doc_good)).
  split; [vm_compute; reflexivity|].
  eexists. vm_compute. reflexivity.
Defined.

Lemma complaints_accumulate_witness :
  exists c,
    Config.FCServer_new Config.J_json Config.resolver Config.doc_all_wrong = Some c /\
    Config.mError c =
    String.append Config.bad_hostname
                  (String.append Config.bad_port Config.bad_devices) /\
    Config.mListenAddr c = None.
Proof.
  apply (ConfigFacts.complaints_accumulate Config.J _ Config.J_json Config.resolver
           Config.doc_all_wrong); vm_compute; reflexivity.
Defined.

Lemma bad_host_still_resolves_wildcard_witness :
  exists c,
    Config.FCServer_new Config.J_json Config.resolver Config.doc_bad_host = Some c /\
    Config.mListenAddr c = Some (None, 7890%N).
Proof.
  destruct (ConfigFacts.bad_host_still_resolves_wildcard Config.J _ Config.J_json
              Config.resolver Config.doc_bad_host (None, 7890%N))
    as (c & H1 & H2 & _); try (vm_compute; reflexivity).
  exists c. split; assumption.
Defined.

Lemma undefined_iff_null_host_unresolved_witness :
  Config.FCServer_new Config.J_json Config.no_resolver Config.doc_null_host = None.
Proof.
  apply (proj2 (ConfigFacts.undefined_iff_null_host_unresolved
                  Config.J _ Config.J_json Config.no_resolver Config.doc_null_host)).
  repeat split; vm_compute; reflexivity.
Defined.

Lemma usbHotplugThreadFunc_keeps_polling_witness :
  exists s' added,
    usbHotplugThreadFunc accept_all
      (map Devices [[3; 2; 1]; [1; 2; 3; 4]; [4; 3; 2; 1; 5]]) server123
    = Some (Polling s') /\
    registered s' = registered server123 ++ added.
Proof.
  destruct (usbHotplugThreadFunc_keeps_polling_while_bus_grows nat nat accept_all
              [[3; 2; 1]; [1; 2; 3; 4]; [4; 3; 2; 1; 5]] [1; 2; 3] server123)
    as (s' & added & H1 & H2 & _).
  - vm_compute. split; [|split].
    + repeat constructor; cbn; intuition discriminate.
    + intros x Hx. cbn in *. tauto.
    + repeat constructor.
  - intros d. vm_compute. intros [<-|[<-|[<-|[]]]]; cbn; tauto.
  - cbn. repeat split; intros x Hx; cbn in *; tauto.
  - exists s', added. split; assumption.
Defined.

Lemma departed_device_gets_no_later_message_witness :
  exists s1 s2,
    usbDeviceLeft 2 server123 = Some (tt, s1) /\
    cbMessage 9 s1 = Some (tt, s2).
Proof.
  destruct (departed_device_gets_no_later_message nat nat 2 9 server123)
    as (s1 & s2 & cs & H1 & H2 & _).
  - vm_compute. split; [|split].
    + repeat constructor; cbn; intuition discriminate.
    + intros x Hx. cbn in *. tauto.
    + repeat constructor.
  - vm_compute. repeat constructor; cbn; intuition discriminate.
  - exists s1, s2. split; assumption.
Defined.

Lemma attached_device_gets_next_message_witness :
  exists s1 s2,
    usbDeviceArrived accept_all 4 server123 = Some (tt, s1) /\
    cbMessage 9 s1 = Some (tt, s2).
Proof.
  destruct (attached_device_gets_next_message_last nat nat accept_all 4 9
              server123 FCDevice)
    as (s1 & s2 & H1 & H2 & _).
  - vm_compute. split; [|split].
    + repeat constructor; cbn; intuition discriminate.
    + intros x Hx. cbn in *. tauto.
    + repeat constructor.
  - vm_compute. reflexivity.
  - vm_compute. reflexivity.
  - exists s1, s2. split; assumption.
Defined.
